(** * The break scheduler of src/app/main/lib/breaks.ts

    A shallow embedding of the module: its six module-level variables, the
    collaborators it calls (settings store, power monitor, notifications,
    tray, IPC, log, timers) and every function in source order, followed by
    the properties of the scheduler.

    Modelling conventions.
    - A JavaScript [Date] and a [moment] are both a number of milliseconds,
      an integer [Z].  Local time is taken at a fixed offset from UTC, so
      the count is read directly as local milliseconds since the local
      epoch (a Thursday); the getters below are the usual floor
      decomposition.  Dates held by the settings are valid dates.
    - The settings snapshot does not change while one operation runs.
    - Each call to a collaborator may raise; which ones do is decided by an
      oracle of the environment.  The clock and the idle state are oracles
      too: every reading may differ from the previous one. *)

From Stdlib Require Import ZArith List String Bool Lia DecimalString.
Import ListNotations.
Open Scope string_scope.
Open Scope Z_scope.

(** ** Time *)

Module Date.
(** [Date.prototype.getHours], [getMinutes], [getSeconds]. *)
Definition getHours (d : Z) : Z := (d / 3600000) mod 24.
Definition getMinutes (d : Z) : Z := (d / 60000) mod 60.
Definition getSeconds (d : Z) : Z := (d / 1000) mod 60.
End Date.

Module Moment.
(** [.add(n, 'hours')], [.add(n, 'minutes')], [.add(n, 'seconds')]:
      units of an hour and below are added as milliseconds. *)
Definition addHours (n m : Z) : Z := m + n * 3600000.
Definition addMinutes (n m : Z) : Z := m + n * 60000.
Definition addSeconds (n m : Z) : Z := m + n * 1000.

(** [.set('hours', n)], [.set('minutes', n)], [.set('seconds', n)]:
      the named field is replaced, the others (milliseconds included) stay. *)
Definition setHours (n m : Z) : Z := m + (n - Date.getHours m) * 3600000.
Definition setMinutes (n m : Z) : Z := m + (n - Date.getMinutes m) * 60000.
Definition setSeconds (n m : Z) : Z := m + (n - Date.getSeconds m) * 1000.

(** [.day()]: the day of the week, Sunday is 0 and Saturday is 6. *)
Definition day (m : Z) : Z := (m / 86400000 + 4) mod 7.
End Moment.

(** [Number(((+a - +b) / 1000).toFixed(0))]: the difference in seconds,
    rounded to the nearest integer, a half rounded away from zero.  The
    source computes on doubles; the integer formula is what it computes as
    long as the difference is at most 2^53 milliseconds in size, where the
    subtraction is exact and the quotient is never rounded onto a half. *)
Definition toFixed0 (ms : Z) : Z :=
  if 0 <=? ms then (ms + 500) / 1000 else - ((- ms + 500) / 1000).

Definition secondsBetween (later earlier : Z) : Z := toFixed0 (later - earlier).

(** [String(n)] for an integer [n]. *)
Definition String_of (n : Z) : string := NilZero.string_of_int (Z.to_int n).

(** Lines 38-41. *)
Definition zeroPad (n : Z) : string :=
  let n := String_of n in
  if (String.length n =? 1)%nat then "0" ++ n else n.

(** Lines 43-49.  [x || 1] is 1 when [x] is 0. *)
Definition getSeconds (date : Z) : Z :=
  let total :=
    (Date.getHours date * 60 * 60) +
    (Date.getMinutes date * 60) +
    (Date.getSeconds date) in
  if total =? 0 then 1 else total.

(** ** Settings

    [types/settings] is not part of the sources at hand; the record lists
    the fields breaks.ts reads.  The two enumerations have the members the
    module compares against; [DoNothing] stands for a click setting that is
    neither [Skip] nor [Postpone]. *)

Inductive NotificationType := Notification | Popup.
Inductive NotificationClick := DoNothing | Skip | Postpone.

Definition NotificationType_eqb (a b : NotificationType) : bool :=
  match a, b with
  | Notification, Notification | Popup, Popup => true
  | _, _ => false
  end.

Definition NotificationClick_eqb (a b : NotificationClick) : bool :=
  match a, b with
  | DoNothing, DoNothing | Skip, Skip | Postpone, Postpone => true
  | _, _ => false
  end.

Record Settings := mkSettings {
  breaksEnabled : bool;
  notificationType : NotificationType;
  notificationClick : NotificationClick;
  postponeLimit : option nat;
  breakFrequency : Z;
  breakLength : Z;
  postponeLength : Z;
  breakTitle : string;
  breakMessage : string;
  gongEnabled : bool;
  idleResetEnabled : bool;
  idleResetLength : Z;
  idleResetNotification : bool;
  workingHoursEnabled : bool;
  workingHoursMonday : bool;
  workingHoursTuesday : bool;
  workingHoursWednesday : bool;
  workingHoursThursday : bool;
  workingHoursFriday : bool;
  workingHoursSaturday : bool;
  workingHoursSunday : bool;
  workingHoursFrom : Z;
  workingHoursTo : Z
}.

(** Lines 244-249. *)
Inductive IdleState := Active | Idle | Locked | Unknown.

Definition IdleState_eqb (a b : IdleState) : bool :=
  match a, b with
  | Active, Active | Idle, Idle | Locked, Locked | Unknown, Unknown => true
  | _, _ => false
  end.

(** ** Module state and the world around it *)

(** Lines 13-18: the module-level variables. *)
Record Vars := mkVars {
  breakTime : option Z;
  havingBreak : bool;
  postponedCount : nat;
  idleStart : option Z;
  lockStart : option Z;
  lastTick : option Z
}.

Definition initialVars : Vars := mkVars None false 0%nat None None None.

(** The closure handed to [showNotification] at lines 181-192: it captures
    [allowSkip], [allowPostpone] and [breakTimeout]. *)
Record ClickHandler := mkClickHandler {
  allowSkip : bool;
  allowPostpone : bool;
  breakTimeout : nat
}.

Inductive IpcChannel := PLAY_START_GONG | PLAY_END_GONG.

(** What the collaborators are asked to do, and the interval timer the
    runtime is asked to run: [SetInterval ms] stands for
    [setInterval(tick, ms)]. *)
Inductive Effect :=
| LogInfo (what : string)
| ShowNotification (title : string) (body : option string)
    (onClick : option ClickHandler)
| BuildTray
| SendIpc (channel : IpcChannel)
| CreateBreakWindows
| SetInterval (ms : Z).

Inductive Exn := CollaboratorError (call : nat).

(** The environment of one operation: the settings snapshot, the successive
    readings of the clock, the successive answers of the power monitor (as
    a function of the threshold passed) and which collaborator calls raise. *)
Record Env := mkEnv {
  settings : Settings;
  clock : nat -> Z;
  idleStateAt : nat -> Z -> IdleState;
  fails : nat -> bool
}.

(** [timers] holds the ids of the pending [setTimeout(beginPopupBreak, 5000)]
    timers; [trace] lists the effects requested so far, newest first. *)
Record World := mkWorld {
  vars : Vars;
  reads : nat;
  polls : nat;
  calls : nat;
  timers : list nat;
  nextTimer : nat;
  trace : list Effect
}.

Definition initialWorld : World := mkWorld initialVars 0 0 0 [] 0 [].

Inductive Completion (A : Type) :=
| Normal (a : A)
| Throw (e : Exn).
Arguments Normal {A} a.
Arguments Throw {A} e.

Definition M (A : Type) : Type := Env -> World -> Completion A * World.

Definition ret {A} (a : A) : M A := fun _ w => (Normal a, w).

Definition bind {A B} (m : M A) (k : A -> M B) : M B :=
  fun env w =>
    match m env w with
    | (Normal a, w1) => k a env w1
    | (Throw e, w1) => (Throw e, w1)
    end.

Declare Scope js_scope.
Delimit Scope js_scope with js.
Notation "x <- m ;; k" := (bind m (fun x => k))
  (at level 100, m at next level, right associativity) : js_scope.
Notation "m ;; k" := (bind m (fun _ => k))
  (at level 100, right associativity) : js_scope.
Open Scope js_scope.

(** [try { body } finally { fin }]: [fin] runs however [body] ends; the
    completion of [body] stands unless [fin] itself raises. *)
Definition tryFinally {A} (body : M A) (fin : M unit) : M A :=
  fun env w =>
    match body env w with
    | (r, w1) =>
        match fin env w1 with
        | (Normal _, w2) => (r, w2)
        | (Throw e, w2) => (Throw e, w2)
        end
    end.

Definition outcome {A} (r : Completion A * World) : Completion A := fst r.
Definition after {A} (r : Completion A * World) : World := snd r.

(** *** Module variables *)

Definition setVars (v : Vars) (w : World) : World :=
  mkWorld v (reads w) (polls w) (calls w) (timers w) (nextTimer w) (trace w).

Definition gets {A} (f : Vars -> A) : M A := fun _ w => (Normal (f (vars w)), w).

Definition modify (f : Vars -> Vars) : M unit :=
  fun _ w => (Normal tt, setVars (f (vars w)) w).

Definition with_breakTime (x : option Z) (v : Vars) : Vars :=
  mkVars x (havingBreak v) (postponedCount v) (idleStart v) (lockStart v) (lastTick v).
Definition with_havingBreak (x : bool) (v : Vars) : Vars :=
  mkVars (breakTime v) x (postponedCount v) (idleStart v) (lockStart v) (lastTick v).
Definition with_postponedCount (x : nat) (v : Vars) : Vars :=
  mkVars (breakTime v) (havingBreak v) x (idleStart v) (lockStart v) (lastTick v).
Definition with_idleStart (x : option Z) (v : Vars) : Vars :=
  mkVars (breakTime v) (havingBreak v) (postponedCount v) x (lockStart v) (lastTick v).
Definition with_lockStart (x : option Z) (v : Vars) : Vars :=
  mkVars (breakTime v) (havingBreak v) (postponedCount v) (idleStart v) x (lastTick v).
Definition with_lastTick (x : option Z) (v : Vars) : Vars :=
  mkVars (breakTime v) (havingBreak v) (postponedCount v) (idleStart v) (lockStart v) x.

(** Truthiness of a variable holding an object or [null], and [+x] of it. *)
Definition truthy {A} (x : option A) : bool :=
  match x with Some _ => true | None => false end.
Definition toNumber (x : option Z) : Z :=
  match x with Some n => n | None => 0 end.

(** *** Built-ins: they do not raise *)

(** [new Date()] and [moment()]: the next reading of the clock. *)
Definition newDate : M Z :=
  fun env w =>
    (Normal (clock env (reads w)),
     mkWorld (vars w) (S (reads w)) (polls w) (calls w) (timers w) (nextTimer w) (trace w)).
Definition moment : M Z := newDate.

(** [setTimeout(beginPopupBreak, 5000)]. *)
Definition setTimeout : M nat :=
  fun _ w =>
    (Normal (nextTimer w),
     mkWorld (vars w) (reads w) (polls w) (calls w)
       (nextTimer w :: timers w) (S (nextTimer w)) (trace w)).

Definition clearTimeout (id : nat) : M unit :=
  fun _ w =>
    (Normal tt,
     mkWorld (vars w) (reads w) (polls w) (calls w)
       (List.filter (fun t => negb (Nat.eqb t id)) (timers w)) (nextTimer w) (trace w)).

(** [setInterval(tick, ms)]. *)
Definition setInterval (ms : Z) : M unit :=
  fun _ w =>
    (Normal tt,
     mkWorld (vars w) (reads w) (polls w) (calls w) (timers w) (nextTimer w)
       (SetInterval ms :: trace w)).

(** *** Collaborators: each call may raise *)

Definition called (w : World) : World :=
  mkWorld (vars w) (reads w) (polls w) (S (calls w)) (timers w) (nextTimer w) (trace w).

Definition collaborator {A} (answer : Env -> World -> A * World) : M A :=
  fun env w =>
    if fails env (calls w)
    then (Throw (CollaboratorError (calls w)), called w)
    else let (a, w1) := answer env (called w) in (Normal a, w1).

Definition request (e : Effect) : M unit :=
  collaborator (fun _ w =>
    (tt, mkWorld (vars w) (reads w) (polls w) (calls w) (timers w) (nextTimer w)
           (e :: trace w))).

Definition getSettings : M Settings :=
  collaborator (fun env w => (settings env, w)).

Definition getSystemIdleState (threshold : Z) : M IdleState :=
  collaborator (fun env w =>
    (idleStateAt env (polls w) threshold,
     mkWorld (vars w) (reads w) (S (polls w)) (calls w) (timers w) (nextTimer w) (trace w))).

Definition logInfo (what : string) : M unit := request (LogInfo what).
Definition showNotification (title : string) (body : option string)
    (onClick : option ClickHandler) : M unit :=
  request (ShowNotification title body onClick).
Definition buildTray : M unit := request BuildTray.
Definition sendIpc (channel : IpcChannel) : M unit := request (SendIpc channel).
Definition createBreakWindows : M unit := request CreateBreakWindows.

(** ** The module, function by function *)

(** Lines 20-22. *)
Definition getBreakTime : M (option Z) := gets breakTime.

(** Lines 24-36. *)
Definition getBreakEndTime : M (option Z) :=
  bt <- gets breakTime;;
  match bt with
  | None => ret None
  | Some t =>
      settings <- getSettings;;
      let length := breakLength settings in
      ret (Some (Moment.addSeconds (Date.getSeconds length)
                  (Moment.addMinutes (Date.getMinutes length)
                    (Moment.addHours (Date.getHours length) t))))
  end.

(** Lines 51-54. *)
Definition getIdleResetSeconds : M Z :=
  settings <- getSettings;;
  ret (getSeconds (idleResetLength settings)).

(** Lines 56-59. *)
Definition getBreakSeconds : M Z :=
  settings <- getSettings;;
  ret (getSeconds (breakFrequency settings)).

(** Lines 69-81: the idle time split into hours, minutes and seconds. *)
Definition idleClock (idleSeconds : Z) : Z * Z * Z :=
  let idleMinutes := 0 in
  let idleHours := 0 in
  let '(idleMinutes, idleSeconds) :=
    if idleSeconds >? 60
    then (idleSeconds / 60, idleSeconds - (idleSeconds / 60) * 60)
    else (idleMinutes, idleSeconds) in
  let '(idleHours, idleMinutes) :=
    if idleMinutes >? 60
    then (idleMinutes / 60, idleMinutes - (idleMinutes / 60) * 60)
    else (idleHours, idleMinutes) in
  (idleHours, idleMinutes, idleSeconds).

Definition idleMessage (idleSeconds : Z) : string :=
  let '(idleHours, idleMinutes, idleSeconds) := idleClock idleSeconds in
  "Idle for " ++ zeroPad idleHours ++ ":" ++ zeroPad idleMinutes ++ ":"
    ++ zeroPad idleSeconds.

(** Lines 61-89. *)
Definition createIdleNotification : M unit :=
  logInfo "CREATE IDLE RESET NOTIF";;
  settings <- getSettings;;
  if negb (idleResetEnabled settings) then ret tt else
  now <- newDate;;
  idle <- gets idleStart;;
  let idleSeconds := secondsBetween now (toNumber idle) in
  if idleResetNotification settings
  then showNotification "Break countdown reset" (Some (idleMessage idleSeconds)) None
  else ret tt.

(** [moment().add(h, 'hours').add(m, 'minutes').add(s, 'seconds')] with the
    fields of [freq]. *)
Definition addFields (freq now : Z) : Z :=
  Moment.addSeconds (Date.getSeconds freq)
    (Moment.addMinutes (Date.getMinutes freq)
      (Moment.addHours (Date.getHours freq) now)).

(** Lines 91-112. *)
Definition createBreak (isPostpone : bool) : M unit :=
  settings <- getSettings;;
  logInfo "create break";;
  idle <- gets idleStart;;
  (if truthy idle then
     logInfo "create break and idleStart";;
     createIdleNotification;;
     modify (with_idleStart None);;
     modify (with_postponedCount 0%nat)
   else ret tt);;
  let freq := if isPostpone then postponeLength settings else breakFrequency settings in
  now <- moment;;
  modify (with_breakTime (Some (addFields freq now)));;
  buildTray.

(** Lines 114-125. *)
Definition beginPopupBreak : M unit :=
  settings <- getSettings;;
  now <- moment;;
  modify (with_breakTime (Some now));;
  createBreakWindows;;
  if gongEnabled settings then sendIpc PLAY_START_GONG else ret tt.

(** Lines 127-142. *)
Definition endPopupBreak : M unit :=
  bt <- gets breakTime;;
  if truthy bt then
    modify (with_breakTime None);;
    modify (with_havingBreak false);;
    modify (with_postponedCount 0%nat);;
    settings <- getSettings;;
    if gongEnabled settings then sendIpc PLAY_START_GONG else ret tt
  else ret tt.

(** Lines 181-192: the body of the click callback, run when the user clicks
    the pre-break warning. *)
Definition onClick (h : ClickHandler) : M unit :=
  if allowSkip h then
    clearTimeout (breakTimeout h);;
    modify (with_breakTime None);;
    modify (with_havingBreak false)
  else if allowPostpone h then
    modify (fun v => with_postponedCount (S (postponedCount v)) v);;
    clearTimeout (breakTimeout h);;
    modify (with_havingBreak false);;
    createBreak true
  else ret tt.

(** Line 169: [!settings.postponeLimit || postponedCount < settings.postponeLimit];
    a limit that is absent or 0 is falsy. *)
Definition underPostponeLimit (limit : option nat) (count : nat) : bool :=
  match limit with
  | None => true
  | Some l => (l =? 0)%nat || (count <? l)%nat
  end.

(** Lines 144-195. *)
Definition doBreak : M unit :=
  modify (with_havingBreak true);;
  settings <- getSettings;;
  (if NotificationType_eqb (notificationType settings) Notification then
     showNotification (breakTitle settings) (Some (breakMessage settings)) None;;
     (if gongEnabled settings then sendIpc PLAY_START_GONG else ret tt);;
     modify (with_havingBreak false);;
     createBreak false
   else ret tt);;
  if NotificationType_eqb (notificationType settings) Popup then
    breakTimeout <- setTimeout;;
    count <- gets postponedCount;;
    let allowSkip := NotificationClick_eqb (notificationClick settings) Skip in
    let allowPostpone :=
      NotificationClick_eqb (notificationClick settings) Postpone &&
      underPostponeLimit (postponeLimit settings) count in
    let body :=
      if allowSkip then Some "Click to skip"
      else if allowPostpone then Some "Click to postpone"
      else None in
    showNotification "Break about to start..." body
      (Some (mkClickHandler allowSkip allowPostpone breakTimeout))
  else ret tt.

(** Lines 206-216: the table [days] and its lookup [days[n]]; a key that
    is not in the table gives [undefined]. *)
Definition days (settings : Settings) (n : Z) : option bool :=
  if n =? 1 then Some (workingHoursMonday settings)
  else if n =? 2 then Some (workingHoursTuesday settings)
  else if n =? 3 then Some (workingHoursWednesday settings)
  else if n =? 4 then Some (workingHoursThursday settings)
  else if n =? 5 then Some (workingHoursFriday settings)
  else if n =? 6 then Some (workingHoursSaturday settings)
  else if n =? 7 then Some (workingHoursSunday settings)
  else None.

Definition isTrue (x : option bool) : bool :=
  match x with Some b => b | None => false end.

(** Lines 224-231: [moment().set('hours', h).set('minutes', m).set('seconds', 0)]
    with the hours and minutes of [hours]. *)
Definition atClockTime (hours base : Z) : Z :=
  Moment.setSeconds 0
    (Moment.setMinutes (Date.getMinutes hours)
      (Moment.setHours (Date.getHours hours) base)).

(** Lines 197-242. *)
Definition checkInWorkingHours : M bool :=
  settings <- getSettings;;
  if negb (workingHoursEnabled settings) then ret true else
  now <- moment;;
  let isWorkingDay := days settings (Moment.day now) in
  if negb (isTrue isWorkingDay) then ret false else
  fromBase <- moment;;
  let hoursFrom := atClockTime (workingHoursFrom settings) fromBase in
  toBase <- moment;;
  let hoursTo := atClockTime (workingHoursTo settings) toBase in
  if now <? hoursFrom then ret false
  else if now >? hoursTo then ret false
  else ret true.

(** Lines 251-279. *)
Definition checkIdle : M bool :=
  settings <- getSettings;;
  threshold <- getIdleResetSeconds;;
  state <- getSystemIdleState threshold;;
  logInfo "state";;
  if IdleState_eqb state Locked then
    lock <- gets lockStart;;
    match lock with
    | None =>
        logInfo "setting lockStart";;
        now <- newDate;;
        modify (with_lockStart (Some now));;
        ret false
    | Some since =>
        now <- newDate;;
        let lockSeconds := secondsBetween now since in
        _ <- getIdleResetSeconds;;
        logInfo "lockSeconds";;
        idleResetSeconds <- getIdleResetSeconds;;
        ret (lockSeconds >? idleResetSeconds)
    end
  else
    modify (with_lockStart None);;
    if negb (idleResetEnabled settings) then ret false
    else ret (IdleState_eqb state Idle).

(** Lines 281-287. *)
Definition checkShouldHaveBreak : M bool :=
  settings <- getSettings;;
  inWorkingHours <- checkInWorkingHours;;
  idle <- checkIdle;;
  having <- gets havingBreak;;
  ret (negb having && breaksEnabled settings && inWorkingHours && negb idle).

(** Lines 289-295.  [now > breakTime] compares numbers; [null] counts as 0. *)
Definition checkBreak : M unit :=
  now <- moment;;
  bt <- gets breakTime;;
  if now >? toNumber bt then doBreak else ret tt.

(** Lines 297-299. *)
Definition startBreakNow : M unit :=
  now <- moment;;
  modify (with_breakTime (Some now)).

(** Lines 308-310. *)
Definition secondsSinceLastTick : M Z :=
  last <- gets lastTick;;
  match last with
  | Some t => now <- newDate;; ret (secondsBetween now t)
  | None => ret 0
  end.

(** Lines 311-317: the arguments of the log call are evaluated first. *)
Definition logTick : M unit :=
  _ <- getIdleResetSeconds;;
  _ <- getBreakSeconds;;
  logInfo "tick".

(** Lines 318-335: the correction after the computer slept. *)
Definition sleepCorrection (secondsSinceLastTick : Z) : M unit :=
  breakSeconds <- getBreakSeconds;;
  if secondsSinceLastTick >? breakSeconds then
    logInfo "seconds since last tick more than break secs";;
    modify (with_lockStart None)
  else
    idleResetSeconds <- getIdleResetSeconds;;
    if secondsSinceLastTick >? idleResetSeconds then
      logInfo "seconds since last tick more than idle reset secs";;
      idle <- gets idleStart;;
      (if negb (truthy idle) then
         logInfo "and no idle start set";;
         modify (with_lockStart None);;
         modify (fun v => with_idleStart (lastTick v) v)
       else ret tt);;
      createBreak false
    else ret tt.

(** Lines 337-356: the three decisions; the first two end the tick. *)
Definition decide (shouldHaveBreak : bool) : M unit :=
  having <- gets havingBreak;;
  bt <- gets breakTime;;
  if negb shouldHaveBreak && negb having && truthy bt then
    logInfo "!shouldHaveBreak && !havingBreak && breakTime";;
    idle <- checkIdle;;
    (if idle then
       logInfo "and is idle";;
       now <- newDate;;
       modify (with_idleStart (Some now))
     else ret tt);;
    modify (with_breakTime None);;
    buildTray
  else if shouldHaveBreak && negb (truthy bt) then
    logInfo "shouldHaveBreak && !breakTime";;
    createBreak false
  else if shouldHaveBreak then checkBreak
  else ret tt.

(** Lines 302-356: the [try] block of [tick]. *)
Definition tickBody : M unit :=
  shouldHaveBreak <- checkShouldHaveBreak;;
  seconds <- secondsSinceLastTick;;
  logTick;;
  sleepCorrection seconds;;
  decide shouldHaveBreak.

(** Lines 357-359: the [finally] block of [tick]. *)
Definition tickFinally : M unit :=
  now <- newDate;;
  modify (with_lastTick (Some now)).

(** Lines 301-360. *)
Definition tick : M unit := tryFinally tickBody tickFinally.

(** Lines 362-370. *)
Definition initBreaks : M unit :=
  settings <- getSettings;;
  (if breaksEnabled settings then createBreak false else ret tt);;
  setInterval 1000.

(** The runtime fires a pending timer: [beginPopupBreak] runs.  A timer
    that was cleared does not fire. *)
Definition fireTimeout (id : nat) : M unit :=
  fun env w =>
    if List.existsb (Nat.eqb id) (timers w)
    then bind (clearTimeout id) (fun _ => beginPopupBreak) env w
    else (Normal tt, w).

(** The handler of the notification shown last, if it has one. *)
Fixpoint lastClickHandler (tr : list Effect) : option ClickHandler :=
  match tr with
  | ShowNotification _ _ h :: _ => h
  | _ :: rest => lastClickHandler rest
  | [] => None
  end.

(** ** Scenarios used as concrete inputs *)

(** No collaborator call raises. *)
Definition quiet (env : Env) : Prop := forall n, fails env n = false.

Definition noFailure : nat -> bool := fun _ => false.

(** Settings used below: a break every hour, breaks of five minutes,
    postponed by three minutes, the countdown reset after five minutes of
    idle time, working hours from 09:00 to 17:00 on Monday to Friday and,
    if [sunday], on Sunday. *)
Definition settingsWith (breaks : bool) (type : NotificationType)
    (click : NotificationClick) (limit : option nat)
    (idleReset workingHours sunday : bool) : Settings :=
  mkSettings breaks type click limit
    3600000 300000 180000 "Time for a break!" "Rest your eyes." false
    idleReset 300000 true
    workingHours true true true true true false sunday 32400000 61200000.

Definition hourlySettings : Settings :=
  settingsWith true Popup Postpone (Some 2%nat) true false false.

Definition steady (s : Settings) (now : Z) (state : IdleState) : Env :=
  mkEnv s (fun _ => now) (fun _ _ => state) noFailure.

Definition worldOf (v : Vars) : World := mkWorld v 0 0 0 [] 0 [].

(** The sixth collaborator call raises: the tick fails half-way, inside
    [checkIdle]. *)
Definition sixthCallFails : Env :=
  mkEnv hourlySettings (fun n => 1000 + Z.of_nat n) (fun _ _ => Active)
    (fun n => Nat.eqb n 5).

(** The first collaborator call raises. *)
Definition firstCallFails : Env :=
  mkEnv hourlySettings (fun _ => 1000) (fun _ _ => Active) (fun n => Nat.eqb n 0).

(** Idle reset switched off, the screen locked since time 0, the clock at
    400 seconds. *)
Definition longLock : Env :=
  steady (settingsWith true Popup Postpone (Some 2%nat) false false false)
    400000 Locked.
Definition lockedSince0 : World :=
  worldOf (mkVars None false 0%nat None (Some 0) None).

(** Sunday 4 January 1970 at 12:00, working hours on, Sunday a working day. *)
Definition sundayNoon : Env :=
  steady (settingsWith true Popup Postpone (Some 2%nat) true true true)
    302400000 Active.

(** Monday 5 January 1970 at 12:00, same settings. *)
Definition mondayNoon : Env :=
  steady (settingsWith true Popup Postpone (Some 2%nat) true true true)
    388800000 Active.

(** A popup warning is due and the break has been postponed once. *)
Definition postponedOnce : World :=
  worldOf (mkVars (Some 0) false 1%nat None None (Some 0)).

(** A run from the start of the application: the countdown is armed at
    time 0, the tick at 1 s finds the system idle and records the idle
    period, "start break now" is chosen at 2 s and the tick at 3 s, the
    system active again, shows the pre-break warning. *)
Definition idleThenStartNow : World :=
  after (tick (steady hourlySettings 3000 Active)
    (after (startBreakNow (steady hourlySettings 2000 Active)
      (after (tick (steady hourlySettings 1000 Idle)
        (after (initBreaks (steady hourlySettings 0 Active) initialWorld))))))).

(** The previous tick was at time 0 and the clock now reads 500 s: the
    computer slept for more than the idle reset length (300 s) and less
    than the break frequency (3600 s).  No idle period is on record. *)
Definition afterShortSleep : World :=
  worldOf (mkVars None false 0%nat None None (Some 0)).
Definition wakeUp : Env := steady hourlySettings 500000 Active.
Definition wakeUpBreaksOff : Env :=
  steady (settingsWith false Popup Postpone (Some 2%nat) true false false)
    500000 Active.

(** A popup warning is due and the break has been postponed twice, which
    is the limit of [hourlySettings]. *)
Definition postponedTwice : World :=
  worldOf (mkVars (Some 0) false 2%nat None None (Some 0)).

(** The weekday flag of the spec's working-hours table for the weekday
    numbered as [Moment.day] does, Sunday being 0. *)
Definition specWeekdayFlag (s : Settings) (d : Z) : bool :=
  if d =? 0 then workingHoursSunday s
  else if d =? 1 then workingHoursMonday s
  else if d =? 2 then workingHoursTuesday s
  else if d =? 3 then workingHoursWednesday s
  else if d =? 4 then workingHoursThursday s
  else if d =? 5 then workingHoursFriday s
  else workingHoursSaturday s.

(** [later w w']: [w'] comes after [w]; the clock has been read at least as
    often and every effect requested by [w] is still on record. *)
Definition later (w w' : World) : Prop :=
  (reads w <= reads w')%nat /\ (forall e, In e (trace w) -> In e (trace w')).

(** The notice [createIdleNotification] shows for an idle period that began
    at [since], when the clock reads [now]. *)
Definition idleNotice (now since : Z) : Effect :=
  ShowNotification "Break countdown reset"
    (Some (idleMessage (secondsBetween now since))) None.

(** The seconds of its day an instant has reached. *)
Definition secondsOfDay (t : Z) : Z :=
  Date.getHours t * 3600 + Date.getMinutes t * 60 + Date.getSeconds t.

(** Tuesday 6 January 1970 at 17:00:00.999 and at 17:00:01.000, working
    hours 09:00-17:00 on. *)
Definition lastMoment : Env :=
  steady (settingsWith true Popup Postpone (Some 2%nat) true true false)
    493200999 Active.
Definition justAfter : Env :=
  steady (settingsWith true Popup Postpone (Some 2%nat) true true false)
    493201000 Active.

(** The notifications among the effects of a trace. *)
Definition isNotification (e : Effect) : bool :=
  match e with ShowNotification _ _ _ => true | _ => false end.
Definition notifications (tr : list Effect) : list Effect :=
  List.filter isNotification tr.

(** The sound requests among the effects of a trace. *)
Definition isSound (e : Effect) : bool :=
  match e with SendIpc _ => true | _ => false end.
Definition sounds (tr : list Effect) : list Effect := List.filter isSound tr.

(** An idle period on record since 1 s, idle reset on, its notice off. *)
Definition idleOnRecord : World :=
  worldOf (mkVars None false 1%nat (Some 1000) None (Some 1000)).
Definition noticeOff : Settings :=
  mkSettings true Popup Postpone (Some 2%nat)
    3600000 300000 180000 "Time for a break!" "Rest your eyes." true
    true 300000 false
    false true true true true true false false 32400000 61200000.

(** A break armed for time 0 is being presented. *)
Definition presenting : World :=
  worldOf (mkVars (Some 0) true 1%nat None None (Some 0)).

(** The screen has just been locked: no lock on record yet. *)
Definition justLocked : Env := steady hourlySettings 7000 Locked.

(** The sixth collaborator call of an operation raises, the system is
    locked. *)
Definition failsWhileLocked : Env :=
  mkEnv hourlySettings (fun n => 1000 + Z.of_nat n) (fun _ _ => Locked)
    (fun n => Nat.eqb n 5).

(** The effect is an entry of the log. *)
Definition isLog (e : Effect) : bool :=
  match e with LogInfo _ => true | _ => false end.

(** Manual start at 2 s: the break time is 2000 and nothing is being
    presented. *)
Definition startedNow : World :=
  worldOf (mkVars (Some 2000) false 0%nat None None (Some 1000)).

(** Breaks are switched off while a break is still armed for time 0. *)
Definition breaksOff : Env :=
  steady (settingsWith false Popup Postpone (Some 2%nat) true false false)
    2000 Active.

(** The user clicks the warning shown last. *)
Definition clickWarning : M unit :=
  fun env w =>
    match lastClickHandler (trace w) with
    | Some h => onClick h env w
    | None => (Normal tt, w)
    end.

(** A run from the start of the application.  A break started by hand is
    postponed once at 3 s; the tick at 4 s finds the system idle and
    records the idle period; the click behaviour is then set to Skip, a
    break is started by hand again at 5 s, and the tick at 6 s shows its
    warning. *)
Definition skipSettings : Settings :=
  settingsWith true Popup Skip (Some 2%nat) true false false.
Definition warningAfterIdle : World :=
  after (tick (steady skipSettings 6000 Active)
    (after (startBreakNow (steady hourlySettings 5000 Active)
      (after (tick (steady hourlySettings 4000 Idle)
        (after (clickWarning (steady hourlySettings 3000 Active)
          (after (tick (steady hourlySettings 2000 Active)
            (after (startBreakNow (steady hourlySettings 1000 Active)
              (after (initBreaks (steady hourlySettings 0 Active)
                 initialWorld))))))))))))).

(** The sleep of [afterShortSleep] ends with the system idle, breaks
    switched off. *)
Definition wakeUpIdle : Env :=
  steady (settingsWith false Popup Postpone (Some 2%nat) true false false)
    500000 Idle.

(** The interval timers among the effects of a trace. *)
Definition isTicker (e : Effect) : bool :=
  match e with SetInterval _ => true | _ => false end.
Definition tickers (tr : list Effect) : list Effect := List.filter isTicker tr.

(** ** Properties *)

(** *** Durations *)

Lemma getHours_range d : 0 <= Date.getHours d < 24.
Proof. unfold Date.getHours. apply Z.mod_pos_bound. lia. Qed.

Lemma getMinutes_range d : 0 <= Date.getMinutes d < 60.
Proof. unfold Date.getMinutes. apply Z.mod_pos_bound. lia. Qed.

Lemma getSecondsField_range d : 0 <= Date.getSeconds d < 60.
Proof. unfold Date.getSeconds. apply Z.mod_pos_bound. lia. Qed.

Example getSeconds_zero : getSeconds 0 = 1.
Proof. reflexivity. Qed.

Example getSeconds_5min : getSeconds 300000 = 300.
Proof. reflexivity. Qed.

Example zeroPad_8 : zeroPad 8 = "08".
Proof. reflexivity. Qed.

Example zeroPad_20 : zeroPad 20 = "20".
Proof. reflexivity. Qed.

Example toFixed0_half :
  toFixed0 1500 = 2 /\ toFixed0 1499 = 1 /\ toFixed0 (-1500) = -2.
Proof. repeat split; reflexivity. Qed.

Example idleMessage_500 : idleMessage 500 = "Idle for 00:08:20".
Proof. reflexivity. Qed.

(** C7.  [getSeconds] (the spec's durationToSeconds) returns 1 for a
    duration whose hour, minute and second fields are all zero, and
    hours*3600 + minutes*60 + seconds for every other duration; it never
    returns 0. *)
Theorem getSeconds_one_or_total (d : Z) :
  let h := Date.getHours d in
  let m := Date.getMinutes d in
  let s := Date.getSeconds d in
  getSeconds d =
    (if (h =? 0) && (m =? 0) && (s =? 0) then 1 else h * 3600 + m * 60 + s)
  /\ 0 < getSeconds d.
Proof.
  cbv zeta. unfold getSeconds.
  pose proof (getHours_range d) as Hh.
  pose proof (getMinutes_range d) as Hm.
  pose proof (getSecondsField_range d) as Hs.
  destruct (Z.eqb_spec (Date.getHours d) 0) as [Eh | Nh];
    destruct (Z.eqb_spec (Date.getMinutes d) 0) as [Em | Nm];
    destruct (Z.eqb_spec (Date.getSeconds d) 0) as [Es | Ns];
    cbn [andb];
    match goal with
    | |- context [?t =? 0] => destruct (Z.eqb_spec t 0)
    end; lia.
Qed.

(** *** The monad *)

Lemma bind_normal {A B} (m : M A) (k : A -> M B) env w a w1 :
  m env w = (Normal a, w1) -> bind m k env w = k a env w1.
Proof. intros E. unfold bind. rewrite E. reflexivity. Qed.

(** *** [tick]: the [try]/[finally] *)

Lemma tickFinally_normal env w :
  tickFinally env w =
    (Normal tt,
     mkWorld (with_lastTick (Some (clock env (reads w))) (vars w))
       (S (reads w)) (polls w) (calls w) (timers w) (nextTimer w) (trace w)).
Proof. reflexivity. Qed.

(** C6.  Whatever path the [try] block of [tick] takes, a raised exception
    included, the last thing [tick] does is read the clock and store the
    reading in [lastTick]: the world after [tick] is the world the block
    left, with [lastTick] set to that reading and nothing else changed. *)
Theorem tick_sets_lastTick_last (env : Env) (w : World) :
  let w1 := after (tickBody env w) in
  after (tick env w) =
    mkWorld (with_lastTick (Some (clock env (reads w1))) (vars w1))
      (S (reads w1)) (polls w1) (calls w1) (timers w1) (nextTimer w1) (trace w1)
  /\ lastTick (vars (after (tick env w))) = Some (clock env (reads w1)).
Proof.
  cbv zeta. unfold tick, tryFinally, after.
  destruct (tickBody env w) as [r w1]. rewrite tickFinally_normal.
  split; reflexivity.
Qed.

Example tick_stamps_after_failure :
  outcome (tick sixthCallFails afterShortSleep) = Throw (CollaboratorError 5) /\
  lastTick (vars (after (tick sixthCallFails afterShortSleep))) = Some 1000.
Proof. split; vm_compute; reflexivity. Qed.

(** C2, as the code has it.  [tick] has no [catch]: it ends the way its
    [try] block ends, normally when the block ends normally and with the
    same exception when the block raised one. *)
Theorem tick_propagates (env : Env) (w : World) :
  outcome (tick env w) = outcome (tickBody env w).
Proof.
  unfold tick, tryFinally, outcome.
  destruct (tickBody env w) as [r w1]. rewrite tickFinally_normal.
  reflexivity.
Qed.

(** C2, refuted as stated.  When the settings store raises at the first
    call of a tick, the exception leaves [tick]; [lastTick] is set all the
    same. *)
Lemma tick_exception_escapes :
  outcome (tickBody firstCallFails initialWorld) = Throw (CollaboratorError 0)
  /\ outcome (tick firstCallFails initialWorld) = Throw (CollaboratorError 0)
  /\ lastTick (vars (after (tick firstCallFails initialWorld))) = Some 1000.
Proof. repeat split; vm_compute; reflexivity. Qed.

(** *** [endPopupBreak] *)

(** C9.  With no break armed, [endPopupBreak] does nothing: it ends
    normally in the world it started in, so no variable changes, no
    collaborator is called and no sound is requested. *)
Theorem endPopupBreak_noop (env : Env) (w : World) :
  breakTime (vars w) = None -> endPopupBreak env w = (Normal tt, w).
Proof.
  intros E. unfold endPopupBreak, bind, gets. rewrite E. reflexivity.
Qed.

Lemma endPopupBreak_noop_witness :
  endPopupBreak firstCallFails initialWorld = (Normal tt, initialWorld).
Proof. apply (endPopupBreak_noop firstCallFails initialWorld). reflexivity. Defined.

(** *** Running the module when no collaborator raises *)

Arguments getSeconds : simpl never.
Arguments secondsBetween : simpl never.
Arguments addFields : simpl never.
Arguments atClockTime : simpl never.
Arguments idleMessage : simpl never.
Arguments Moment.day : simpl never.
Arguments days : simpl never.
Arguments underPostponeLimit : simpl never.
Arguments createBreak : simpl never.
Arguments doBreak : simpl never.
Arguments checkIdle : simpl never.
Arguments checkInWorkingHours : simpl never.
Arguments checkBreak : simpl never.

Ltac prims :=
  unfold getBreakSeconds, getIdleResetSeconds, getSystemIdleState, getSettings,
    logInfo, showNotification, buildTray, sendIpc, createBreakWindows, request,
    collaborator, setTimeout, clearTimeout, moment, newDate, modify, gets, bind,
    ret, called, setVars.

Ltac run Q :=
  repeat first
    [ progress (cbn -[Z.gtb Z.ltb Nat.ltb Nat.eqb Z.add Z.mul])
    | progress (rewrite ?Q) ].

Lemma later_refl w : later w w.
Proof. split; auto. Qed.

Ltac settle := repeat split; cbn; try lia; try (intros ? ?; tauto).

Lemma createBreak_quiet (isPostpone : bool) env w :
  quiet env ->
  exists w' k,
    createBreak isPostpone env w = (Normal tt, w') /\
    (reads w <= k < reads w')%nat /\
    vars w' =
      with_breakTime
        (Some (addFields
                 (if isPostpone then postponeLength (settings env)
                  else breakFrequency (settings env))
                 (clock env k)))
        (if truthy (idleStart (vars w))
         then with_postponedCount 0 (with_idleStart None (vars w))
         else vars w) /\
    timers w' = timers w /\
    later w w' /\
    (forall since,
       idleStart (vars w) = Some since ->
       idleResetEnabled (settings env) && idleResetNotification (settings env) = true ->
       In (idleNotice (clock env (reads w)) since) (trace w')).
Proof.
  intros Q. unfold createBreak, createIdleNotification. prims. run Q.
  destruct (idleStart (vars w)) as [since |] eqn:Ei; run Q;
    [ destruct (idleResetEnabled (settings env)) eqn:Ee; run Q;
      [ destruct (idleResetNotification (settings env)) eqn:En; run Q | ] | ].
  1, 2: eexists; exists (S (reads w)); (split; [reflexivity |]); settle.
  - intros s [= <-] _. rewrite Ei. cbn. unfold idleNotice. tauto.
  - eexists; exists (reads w); (split; [reflexivity |]); settle.
  - eexists; exists (reads w); (split; [reflexivity |]); settle.
    intros; discriminate.
Qed.

Ltac use_createBreak Q :=
  match goal with
  | |- context [createBreak ?p ?env ?w] =>
      let w' := fresh "w'" in
      let k := fresh "k" in
      let E := fresh "E" in
      destruct (createBreak_quiet p env w Q) as (w' & k & E & ?Hk & ?Hv & ?Ht & ?Hl & ?Hn);
      rewrite E
  end.

(** The handler [doBreak] attaches to the pre-break warning. *)
Lemma doBreak_popup env w :
  quiet env ->
  notificationType (settings env) = Popup ->
  let skip := NotificationClick_eqb (notificationClick (settings env)) Skip in
  let postpone :=
    NotificationClick_eqb (notificationClick (settings env)) Postpone &&
    underPostponeLimit (postponeLimit (settings env)) (postponedCount (vars w)) in
  doBreak env w =
    (Normal tt,
     mkWorld (with_havingBreak true (vars w)) (reads w) (polls w) (S (S (calls w)))
       (nextTimer w :: timers w) (S (nextTimer w))
       (ShowNotification "Break about to start..."
          (if skip then Some "Click to skip"
           else if postpone then Some "Click to postpone" else None)
          (Some (mkClickHandler skip postpone (nextTimer w)))
        :: trace w)).
Proof.
  intros Q T. unfold doBreak. prims. run Q. rewrite T. run Q. reflexivity.
Qed.

Lemma doBreak_notification env w :
  quiet env ->
  notificationType (settings env) = Notification ->
  exists w' k,
    doBreak env w = (Normal tt, w') /\
    (reads w <= k < reads w')%nat /\
    vars w' =
      with_breakTime
        (Some (addFields (breakFrequency (settings env)) (clock env k)))
        (if truthy (idleStart (vars w))
         then with_postponedCount 0
                (with_idleStart None (with_havingBreak false (vars w)))
         else with_havingBreak false (vars w)) /\
    timers w' = timers w /\
    later w w'.
Proof.
  intros Q T. unfold doBreak. prims. run Q. rewrite T. run Q.
  destruct (gongEnabled (settings env)); run Q; use_createBreak Q;
    cbn in *; exists w', k; (split; [reflexivity |]);
    (split; [lia |]); (split; [exact Hv |]); (split; [exact Ht |]);
    destruct Hl as [Hr Hin]; cbn in *; split; [lia | auto | lia | auto].
Qed.

(** *** [checkIdle] *)

Lemma checkIdle_quiet env w :
  quiet env ->
  let threshold := getSeconds (idleResetLength (settings env)) in
  let state := idleStateAt env (polls w) threshold in
  exists w',
    checkIdle env w =
      (Normal
         match state, lockStart (vars w) with
         | Locked, Some since =>
             secondsBetween (clock env (reads w)) since >? threshold
         | Locked, None => false
         | Idle, _ => idleResetEnabled (settings env)
         | _, _ => false
         end, w') /\
    vars w' =
      with_lockStart
        match state, lockStart (vars w) with
        | Locked, Some since => Some since
        | Locked, None => Some (clock env (reads w))
        | _, _ => None
        end (vars w) /\
    timers w' = timers w /\
    later w w'.
Proof.
  intros Q threshold state. subst threshold state.
  unfold checkIdle. prims. run Q.
  destruct (idleStateAt env (polls w) (getSeconds (idleResetLength (settings env))));
    run Q.
  3: destruct (lockStart (vars w)) as [since |] eqn:El; run Q.
  all: try (destruct (idleResetEnabled (settings env)); run Q).
  all: eexists; (split; [reflexivity |]); settle.
  all: destruct (vars w); cbn in *; subst; reflexivity.
Qed.

Lemma checkIdle_frame env w :
  quiet env ->
  exists idle w',
    checkIdle env w = (Normal idle, w') /\
    (exists l, vars w' = with_lockStart l (vars w)) /\
    timers w' = timers w /\
    later w w'.
Proof.
  intros Q. destruct (checkIdle_quiet env w Q) as (w' & E & V & T & L).
  do 2 eexists. split; [exact E |]. split; [eexists; exact V |]. auto.
Qed.

(** *** [checkInWorkingHours] *)

Lemma checkInWorkingHours_quiet env w :
  quiet env ->
  let now := clock env (reads w) in
  let hoursFrom := atClockTime (workingHoursFrom (settings env)) (clock env (S (reads w))) in
  let hoursTo := atClockTime (workingHoursTo (settings env)) (clock env (S (S (reads w)))) in
  exists w',
    checkInWorkingHours env w =
      (Normal
         (if workingHoursEnabled (settings env)
          then isTrue (days (settings env) (Moment.day now))
               && (hoursFrom <=? now) && (now <=? hoursTo)
          else true), w') /\
    vars w' = vars w /\
    timers w' = timers w /\
    trace w' = trace w /\
    (reads w <= reads w')%nat.
Proof.
  intros Q now hoursFrom hoursTo. subst now hoursFrom hoursTo.
  unfold checkInWorkingHours. prims. run Q.
  destruct (workingHoursEnabled (settings env)); run Q.
  2: eexists; (split; [reflexivity |]); settle.
  destruct (isTrue (days (settings env) (Moment.day (clock env (reads w))))); run Q.
  2: eexists; (split; [reflexivity |]); settle.
  rewrite Z.gtb_ltb.
  rewrite (Z.leb_antisym (clock env (reads w))).
  rewrite (Z.leb_antisym _ (clock env (reads w))).
  destruct (_ <? _); run Q.
  1: eexists; (split; [reflexivity |]); settle.
  destruct (_ <? _); run Q; eexists; (split; [reflexivity |]); settle.
Qed.

(** C4, at the failing input.  On a Sunday at noon, with working hours
    09:00-17:00 switched on and Sunday a working day, the time lies between
    [from] and [to], yet [checkInWorkingHours] answers [false]:
    [now.day()] is 0 on a Sunday and the table [days] has Sunday under 7. *)
Theorem checkInWorkingHours_sunday_noon :
  let s := settings sundayNoon in
  let now := clock sundayNoon 0 in
  workingHoursEnabled s = true /\
  workingHoursSunday s = true /\
  Moment.day now = 0 /\
  atClockTime (workingHoursFrom s) now <= now <= atClockTime (workingHoursTo s) now /\
  outcome (checkInWorkingHours sundayNoon initialWorld) = Normal false.
Proof. cbv zeta. repeat split; vm_compute; congruence. Qed.

Example checkInWorkingHours_monday_noon :
  outcome (checkInWorkingHours mondayNoon initialWorld) = Normal true.
Proof. vm_compute. reflexivity. Qed.

(** On a Sunday the answer is [false] whatever the Sunday flag says. *)
Lemma checkInWorkingHours_sunday env w :
  quiet env ->
  workingHoursEnabled (settings env) = true ->
  Moment.day (clock env (reads w)) = 0 ->
  outcome (checkInWorkingHours env w) = Normal false.
Proof.
  intros Q En D.
  destruct (checkInWorkingHours_quiet env w Q) as (w' & E & _).
  unfold outcome. rewrite E, En, D. reflexivity.
Qed.

Lemma Moment_day_range m : 0 <= Moment.day m < 7.
Proof. unfold Moment.day. apply Z.mod_pos_bound. lia. Qed.

(** X6.  From Monday to Saturday [checkInWorkingHours] does what the spec says:
    [false] on a day that is switched off, and otherwise [true] exactly
    when [from <= now <= to]. *)
Lemma checkInWorkingHours_monday_to_saturday env w :
  quiet env ->
  workingHoursEnabled (settings env) = true ->
  Moment.day (clock env (reads w)) <> 0 ->
  let now := clock env (reads w) in
  let hoursFrom := atClockTime (workingHoursFrom (settings env)) (clock env (S (reads w))) in
  let hoursTo := atClockTime (workingHoursTo (settings env)) (clock env (S (S (reads w)))) in
  outcome (checkInWorkingHours env w) =
    Normal (specWeekdayFlag (settings env) (Moment.day now)
            && (hoursFrom <=? now) && (now <=? hoursTo)).
Proof.
  intros Q En D now hoursFrom hoursTo. subst now hoursFrom hoursTo.
  destruct (checkInWorkingHours_quiet env w Q) as (w' & E & _).
  unfold outcome. rewrite E, En. cbn [fst]. do 3 f_equal.
  pose proof (Moment_day_range (clock env (reads w))) as R.
  unfold days, specWeekdayFlag.
  repeat match goal with
         | |- context [?a =? ?b] => destruct (Z.eqb_spec a b)
         end; try reflexivity; lia.
Qed.

(** C3, refuted as stated.  Idle reset is switched off and the screen has
    been locked for 400 seconds, more than the 300 seconds of
    [idleResetLength]: [checkIdle] answers [true]. *)
Lemma checkIdle_long_lock_is_idle :
  idleResetEnabled (settings longLock) = false /\
  outcome (checkIdle longLock lockedSince0) = Normal true.
Proof. split; vm_compute; reflexivity. Qed.

(** C3, as the code has it.  With idle reset switched off, [checkIdle]
    answers [false] unless the system is locked and a lock is already on
    record; in that case the switch is not consulted and the answer is
    whether the lock has lasted more than [idleResetLength]. *)
Theorem checkIdle_idleReset_disabled (env : Env) (w : World) :
  quiet env ->
  idleResetEnabled (settings env) = false ->
  let threshold := getSeconds (idleResetLength (settings env)) in
  outcome (checkIdle env w) =
    Normal
      match idleStateAt env (polls w) threshold, lockStart (vars w) with
      | Locked, Some since =>
          secondsBetween (clock env (reads w)) since >? threshold
      | _, _ => false
      end.
Proof.
  intros Q D threshold. subst threshold.
  destruct (checkIdle_quiet env w Q) as (w' & E & _).
  unfold outcome. rewrite E, D. cbn [fst].
  destruct (idleStateAt env (polls w) _); reflexivity.
Qed.

Lemma checkIdle_idleReset_disabled_witness :
  outcome (checkIdle longLock lockedSince0) =
    Normal (secondsBetween 400000 0 >? 300).
Proof.
  apply (checkIdle_idleReset_disabled longLock lockedSince0).
  - intros n. reflexivity.
  - reflexivity.
Defined.

(** *** [postponedCount] *)

Lemma endPopupBreak_quiet env w :
  quiet env ->
  exists w',
    endPopupBreak env w = (Normal tt, w') /\
    vars w' =
      (if truthy (breakTime (vars w))
       then with_postponedCount 0
              (with_havingBreak false (with_breakTime None (vars w)))
       else vars w) /\
    timers w' = timers w /\
    later w w'.
Proof.
  intros Q. unfold endPopupBreak. prims. run Q.
  destruct (breakTime (vars w)); run Q.
  - destruct (gongEnabled (settings env)); run Q;
      eexists; (split; [reflexivity |]); settle.
  - eexists; (split; [reflexivity |]); settle.
Qed.

Lemma beginPopupBreak_quiet env w :
  quiet env ->
  exists w',
    beginPopupBreak env w = (Normal tt, w') /\
    vars w' = with_breakTime (Some (clock env (reads w))) (vars w) /\
    timers w' = timers w /\
    later w w'.
Proof.
  intros Q. unfold beginPopupBreak. prims. run Q.
  destruct (gongEnabled (settings env)); run Q;
    eexists; (split; [reflexivity |]); settle.
Qed.

(** C5, refuted as stated.  A break that has been postponed once starts in
    popup mode: [doBreak] enters the presenting state and [postponedCount]
    is still 1. *)
Lemma doBreak_keeps_postponedCount :
  let w' := after (doBreak (steady hourlySettings 1000 Active) postponedOnce) in
  havingBreak (vars w') = true /\ postponedCount (vars w') = 1%nat.
Proof. split; vm_compute; reflexivity. Qed.

(** C5, as the code has it.  Starting a break does not reset
    [postponedCount]: [doBreak] leaves it as it is, except in notification
    mode with an idle period on record, where the [createBreak] it calls
    resets it; [beginPopupBreak] leaves it as it is.  The count is reset to
    0 by [endPopupBreak] when a break is armed and by [createBreak] when an
    idle period is on record. *)
Theorem postponedCount_resets (env : Env) (w : World) :
  quiet env ->
  let count := postponedCount (vars w) in
  postponedCount (vars (after (doBreak env w))) =
    (if NotificationType_eqb (notificationType (settings env)) Notification
        && truthy (idleStart (vars w))
     then 0%nat else count) /\
  postponedCount (vars (after (beginPopupBreak env w))) = count /\
  postponedCount (vars (after (endPopupBreak env w))) =
    (if truthy (breakTime (vars w)) then 0%nat else count) /\
  (forall isPostpone,
     postponedCount (vars (after (createBreak isPostpone env w))) =
       (if truthy (idleStart (vars w)) then 0%nat else count)).
Proof.
  intros Q count. subst count. unfold after. repeat split.
  - destruct (notificationType (settings env)) eqn:T.
    + destruct (doBreak_notification env w Q T) as (w' & k & E & _ & Hv & _).
      rewrite E; cbn [snd]; rewrite Hv. cbn. destruct (idleStart (vars w)); reflexivity.
    + rewrite (doBreak_popup env w Q T). reflexivity.
  - destruct (beginPopupBreak_quiet env w Q) as (w' & E & Hv & _).
    rewrite E; cbn [snd]; rewrite Hv. reflexivity.
  - destruct (endPopupBreak_quiet env w Q) as (w' & E & Hv & _).
    rewrite E; cbn [snd]; rewrite Hv. destruct (breakTime (vars w)); reflexivity.
  - intros p. destruct (createBreak_quiet p env w Q) as (w' & k & E & _ & Hv & _).
    rewrite E; cbn [snd]; rewrite Hv. destruct (idleStart (vars w)); reflexivity.
Qed.

Lemma postponedCount_resets_witness :
  postponedCount
    (vars (after (doBreak (steady hourlySettings 1000 Active) postponedOnce))) = 1%nat.
Proof.
  apply (postponedCount_resets (steady hourlySettings 1000 Active) postponedOnce).
  intros n. reflexivity.
Defined.

(** *** Clicks on the pre-break warning *)

Lemma filter_out_absent (id : nat) (l : list nat) :
  ~ In id (List.filter (fun t => negb (Nat.eqb t id)) l).
Proof.
  intros H. apply filter_In in H. destruct H as [_ H].
  rewrite Nat.eqb_refl in H. discriminate.
Qed.

Lemma onClick_skip (h : ClickHandler) env w :
  allowSkip h = true ->
  onClick h env w =
    (Normal tt,
     mkWorld (with_havingBreak false (with_breakTime None (vars w)))
       (reads w) (polls w) (calls w)
       (List.filter (fun t => negb (Nat.eqb t (breakTimeout h))) (timers w))
       (nextTimer w) (trace w)).
Proof. intros S. unfold onClick. rewrite S. reflexivity. Qed.

Lemma onClick_neither (h : ClickHandler) env w :
  allowSkip h = false -> allowPostpone h = false ->
  onClick h env w = (Normal tt, w).
Proof. intros S P. unfold onClick. rewrite S, P. reflexivity. Qed.

Lemma onClick_postpone (h : ClickHandler) env w :
  quiet env ->
  allowSkip h = false -> allowPostpone h = true ->
  exists w' k,
    onClick h env w = (Normal tt, w') /\
    (reads w <= k < reads w')%nat /\
    vars w' =
      with_breakTime
        (Some (addFields (postponeLength (settings env)) (clock env k)))
        (if truthy (idleStart (vars w))
         then with_postponedCount 0
                (with_idleStart None (with_havingBreak false (vars w)))
         else with_havingBreak false
                (with_postponedCount (S (postponedCount (vars w))) (vars w))) /\
    ~ In (breakTimeout h) (timers w') /\
    later w w'.
Proof.
  intros Q S P. unfold onClick. rewrite S, P. prims. run Q.
  use_createBreak Q. cbn in *. exists w', k.
  split; [reflexivity |]. split; [lia |]. split.
  - rewrite Hv. destruct (idleStart (vars w)); reflexivity.
  - split; [rewrite Ht; apply filter_out_absent |].
    destruct Hl as [Hr Hin]. split; cbn in *; [lia | auto].
Qed.

Example warningAfterIdle_vars :
  vars warningAfterIdle =
    mkVars (Some 5000) true 1%nat (Some 4000) None (Some 6000).
Proof. vm_compute. reflexivity. Qed.

(** C10, refuted as stated.  In the run [warningAfterIdle] the break has
    been postponed once and an idle period is on record when the warning
    is clicked to skip.  The click leaves the count at 1, but the count
    does not reach the next break cycle: the tick that arms the next
    countdown finds the idle period and resets the count to 0. *)
Lemma skip_click_count_lost :
  postponedCount (vars warningAfterIdle) = 1%nat /\
  exists h,
    lastClickHandler (trace warningAfterIdle) = Some h /\
    allowSkip h = true /\
    let w' := after (onClick h (steady skipSettings 7000 Active) warningAfterIdle) in
    let w'' := after (tick (steady skipSettings 8000 Active) w') in
    postponedCount (vars w') = 1%nat /\
    breakTime (vars w') = None /\
    breakTime (vars w'') = Some (8000 + 3600000) /\
    postponedCount (vars w'') = 0%nat.
Proof.
  split; [vm_compute; reflexivity |].
  exists (mkClickHandler true false 1).
  repeat split; vm_compute; reflexivity.
Qed.

(** C10, as the code has it.  With click behaviour Skip, the handler
    [doBreak] attaches to the pre-break warning, whenever it is clicked,
    clears the pending timer, sets [breakTime] to [null] and [havingBreak]
    to [false] and does nothing else: [postponedCount], [idleStart],
    [lockStart] and [lastTick] stay as they are, no collaborator is called.
    The count survives the click itself; when the next countdown is
    created it is still there if no idle period is on record, and is reset
    to 0 if one is. *)
Theorem skip_click (env : Env) (w : World) :
  quiet env ->
  notificationType (settings env) = Popup ->
  notificationClick (settings env) = Skip ->
  exists h,
    lastClickHandler (trace (after (doBreak env w))) = Some h /\
    breakTimeout h = nextTimer w /\
    forall env' w',
      let w'' := after (onClick h env' w') in
      outcome (onClick h env' w') = Normal tt /\
      breakTime (vars w'') = None /\
      havingBreak (vars w'') = false /\
      postponedCount (vars w'') = postponedCount (vars w') /\
      idleStart (vars w'') = idleStart (vars w') /\
      lockStart (vars w'') = lockStart (vars w') /\
      lastTick (vars w'') = lastTick (vars w') /\
      ~ In (breakTimeout h) (timers w'') /\
      trace w'' = trace w' /\ calls w'' = calls w' /\ reads w'' = reads w' /\
      (forall env'', quiet env'' ->
         postponedCount (vars (after (createBreak false env'' w''))) =
           (if truthy (idleStart (vars w')) then 0%nat
            else postponedCount (vars w'))).
Proof.
  intros Q T C. unfold after, outcome.
  rewrite (doBreak_popup env w Q T). rewrite C. cbn [snd trace lastClickHandler].
  eexists. split; [reflexivity |]. split; [reflexivity |].
  intros env' w'. rewrite onClick_skip by reflexivity. cbn.
  repeat split; try apply filter_out_absent.
  intros env'' Q''.
  match goal with
  | |- context [createBreak false env'' ?x] =>
      destruct (createBreak_quiet false env'' x Q'') as (y & k & E & _ & Hv & _)
  end.
  rewrite E. cbn [snd]. rewrite Hv. cbn.
  destruct (idleStart (vars w')); reflexivity.
Qed.

Lemma skip_click_witness :
  exists h,
    lastClickHandler
      (trace (after (doBreak
        (steady (settingsWith true Popup Skip None true false false) 1000 Active)
        postponedOnce))) = Some h /\
    postponedCount (vars (after (onClick h firstCallFails postponedOnce))) = 1%nat.
Proof.
  destruct (skip_click
              (steady (settingsWith true Popup Skip None true false false) 1000 Active)
              postponedOnce) as (h & E & _ & F).
  - intros n. reflexivity.
  - reflexivity.
  - reflexivity.
  - exists h. split; [exact E |].
    destruct (F firstCallFails postponedOnce) as (_ & _ & _ & P & _). exact P.
Defined.

Lemma underPostponeLimit_2 (count : nat) :
  underPostponeLimit (Some 2%nat) count = (count <? 2)%nat.
Proof. reflexivity. Qed.

Lemma underPostponeLimit_unset (count : nat) :
  underPostponeLimit None count = true /\ underPostponeLimit (Some 0%nat) count = true.
Proof. split; reflexivity. Qed.

Example idleThenStartNow_vars :
  vars idleThenStartNow =
    mkVars (Some 2000) true 0%nat (Some 1000) None (Some 3000).
Proof. vm_compute. reflexivity. Qed.

Lemma fireTimeout_pending (id : nat) env w :
  In id (timers w) ->
  fireTimeout id env w = bind (clearTimeout id) (fun _ => beginPopupBreak) env w.
Proof.
  intros H. unfold fireTimeout.
  replace (existsb (Nat.eqb id) (timers w)) with true; [reflexivity |].
  symmetry. apply existsb_exists. exists id. split; [exact H | apply Nat.eqb_refl].
Qed.

(** At the limit of two postponements the click changes nothing, and when
    the timer fires the popup break begins. *)
Example third_postpone_click_ignored :
  let env := steady hourlySettings 1000 Active in
  let w1 := after (doBreak env postponedTwice) in
  exists h,
    lastClickHandler (trace w1) = Some h /\
    onClick h env w1 = (Normal tt, w1) /\
    timers w1 = [breakTimeout h] /\
    let w2 := after (fireTimeout (breakTimeout h) (steady hourlySettings 6000 Active) w1) in
    vars w2 = mkVars (Some 6000) true 2%nat None None (Some 0) /\
    In CreateBreakWindows (trace w2).
Proof.
  exists (mkClickHandler false false 0).
  repeat split; vm_compute; auto.
Qed.

(** C8, refuted as stated.  In the run [idleThenStartNow] the warning is
    on screen with an idle period still on record and [postponedCount] 0,
    under the limit 2.  The click postpones the break, but the count ends
    at 0, not at 1: the [createBreak(true)] of the click resets it. *)
Lemma postpone_click_resets_count :
  postponeLimit hourlySettings = Some 2%nat /\
  postponedCount (vars idleThenStartNow) = 0%nat /\
  exists h,
    lastClickHandler (trace idleThenStartNow) = Some h /\
    allowPostpone h = true /\
    let w' := after (onClick h (steady hourlySettings 4000 Active) idleThenStartNow) in
    postponedCount (vars w') = 0%nat /\
    breakTime (vars w') = Some (4000 + 180000).
Proof.
  split; [reflexivity |]. split; [vm_compute; reflexivity |].
  exists (mkClickHandler false true 0).
  repeat split; vm_compute; reflexivity.
Qed.

(** C8, as the code has it.  With click behaviour Postpone, [doBreak] sets
    the 5-second timer and attaches a handler to the warning.  If the
    count has reached the limit, a click does nothing at all: the world
    stays as it is, the timer stays pending.  If the count is under the
    limit, or no limit is set, a click clears the timer, sets [havingBreak]
    to [false] and arms the break at a fresh clock reading plus the
    postpone length; it leaves [postponedCount] one higher, unless an idle
    period is on record at the click: then [createBreak(true)] clears the
    idle period and the count ends at 0. *)
Theorem postpone_click (env : Env) (w : World) :
  quiet env ->
  notificationType (settings env) = Popup ->
  notificationClick (settings env) = Postpone ->
  let w1 := after (doBreak env w) in
  let under :=
    underPostponeLimit (postponeLimit (settings env)) (postponedCount (vars w)) in
  exists h,
    lastClickHandler (trace w1) = Some h /\
    In (breakTimeout h) (timers w1) /\
    vars w1 = with_havingBreak true (vars w) /\
    if under then
      forall env' w', quiet env' ->
        exists w'' k,
          onClick h env' w' = (Normal tt, w'') /\
          (reads w' <= k < reads w'')%nat /\
          breakTime (vars w'') =
            Some (addFields (postponeLength (settings env')) (clock env' k)) /\
          havingBreak (vars w'') = false /\
          postponedCount (vars w'') =
            (if truthy (idleStart (vars w')) then 0%nat
             else S (postponedCount (vars w'))) /\
          idleStart (vars w'') = None /\
          lockStart (vars w'') = lockStart (vars w') /\
          lastTick (vars w'') = lastTick (vars w') /\
          ~ In (breakTimeout h) (timers w'')
    else
      forall env' w', onClick h env' w' = (Normal tt, w').
Proof.
  intros Q T C w1 under. subst w1 under. unfold after.
  rewrite (doBreak_popup env w Q T). rewrite C. cbn [snd trace lastClickHandler].
  eexists. split; [reflexivity |]. split; [cbn; auto |]. split; [reflexivity |].
  cbn [NotificationClick_eqb andb].
  destruct (underPostponeLimit _ _) eqn:U.
  - intros env' w' Q'.
    destruct (onClick_postpone
                (mkClickHandler false true (nextTimer w)) env' w' Q' eq_refl eq_refl)
      as (w'' & k & E & Hk & Hv & Ht & _).
    exists w'', k. rewrite E, Hv. cbn [breakTimeout] in *.
    destruct (idleStart (vars w')) eqn:I; cbn; rewrite ?I; repeat split; auto; lia.
  - intros env' w'. apply onClick_neither; reflexivity.
Qed.

Lemma postpone_click_witness :
  exists h,
    lastClickHandler
      (trace (after (doBreak (steady hourlySettings 1000 Active) postponedOnce)))
      = Some h /\
    In (breakTimeout h)
      (timers (after (doBreak (steady hourlySettings 1000 Active) postponedOnce))).
Proof.
  destruct (postpone_click (steady hourlySettings 1000 Active) postponedOnce)
    as (h & E & I & _).
  - intros n. reflexivity.
  - reflexivity.
  - reflexivity.
  - exists h. split; [exact E | exact I].
Defined.

(** *** The phases of [tick] *)

Lemma checkShouldHaveBreak_quiet env w :
  quiet env ->
  exists shb w',
    checkShouldHaveBreak env w = (Normal shb, w') /\
    (exists l, vars w' = with_lockStart l (vars w)) /\
    timers w' = timers w /\
    later w w'.
Proof.
  intros Q. unfold checkShouldHaveBreak. prims. run Q.
  match goal with
  | |- context [checkInWorkingHours env ?x] =>
      destruct (checkInWorkingHours_quiet env x Q) as (w1 & E1 & V1 & T1 & Tr1 & R1)
  end.
  rewrite E1.
  destruct (checkIdle_frame env w1 Q) as (idle & w2 & E2 & [l V2] & T2 & [R2 Tr2]).
  rewrite E2. cbn in *. do 2 eexists. split; [reflexivity |].
  split; [| split; [congruence | split; [lia |]]].
  - eexists. rewrite V2, V1. reflexivity.
  - intros e H. apply Tr2. rewrite Tr1. exact H.
Qed.

Lemma secondsSinceLastTick_run env w last :
  lastTick (vars w) = Some last ->
  secondsSinceLastTick env w =
    (Normal (secondsBetween (clock env (reads w)) last),
     mkWorld (vars w) (S (reads w)) (polls w) (calls w) (timers w) (nextTimer w)
       (trace w)).
Proof. intros L. unfold secondsSinceLastTick. prims. rewrite L. reflexivity. Qed.

Lemma logTick_quiet env w :
  quiet env ->
  logTick env w =
    (Normal tt,
     mkWorld (vars w) (reads w) (polls w) (S (S (S (calls w)))) (timers w)
       (nextTimer w) (LogInfo "tick" :: trace w)).
Proof. intros Q. unfold logTick. prims. run Q. reflexivity. Qed.

(** C1, refuted as stated.  The tick after a sleep of 500 s ends with no
    idle period on record, although the previous tick was at time 0: the
    [createBreak] of the sleep correction has cleared it.  With breaks
    switched off the same tick ends with no break armed either. *)
Lemma tick_gap_clears_idleStart :
  outcome (bind checkShouldHaveBreak (fun _ => secondsSinceLastTick)
             wakeUp afterShortSleep) = Normal 500 /\
  getSeconds (idleResetLength (settings wakeUp)) = 300 /\
  getSeconds (breakFrequency (settings wakeUp)) = 3600 /\
  idleStart (vars afterShortSleep) = None /\
  lastTick (vars afterShortSleep) = Some 0 /\
  outcome (tick wakeUp afterShortSleep) = Normal tt /\
  idleStart (vars (after (tick wakeUp afterShortSleep))) = None /\
  breakTime (vars (after (tick wakeUp afterShortSleep))) = Some 4100000 /\
  outcome (tick wakeUpBreaksOff afterShortSleep) = Normal tt /\
  breakTime (vars (after (tick wakeUpBreaksOff afterShortSleep))) = None.
Proof. repeat split; vm_compute; reflexivity. Qed.

(** The sleep correction when the gap is above the idle reset length and
    not above the break frequency, with no idle period on record, reading
    by reading: the idle period is dated back to the previous tick, and
    [createBreak] uses it for the notice and clears it again. *)
Lemma sleepCorrection_gap_run env w (seconds last : Z) :
  quiet env ->
  idleStart (vars w) = None ->
  lastTick (vars w) = Some last ->
  getSeconds (idleResetLength (settings env)) < seconds
    <= getSeconds (breakFrequency (settings env)) ->
  let extra := if idleResetEnabled (settings env) then 1%nat else 0%nat in
  exists w',
    sleepCorrection seconds env w = (Normal tt, w') /\
    vars w' =
      mkVars
        (Some (addFields (breakFrequency (settings env))
                 (clock env (reads w + extra))))
        (havingBreak (vars w)) 0%nat None None (Some last) /\
    reads w' = S (reads w + extra) /\
    polls w' = polls w /\
    (forall e, In e (trace w) -> In e (trace w')) /\
    (idleResetEnabled (settings env) && idleResetNotification (settings env) = true ->
     In (idleNotice (clock env (reads w)) last) (trace w')).
Proof.
  intros Q I L [Lo Hi] extra. subst extra.
  unfold sleepCorrection, createBreak, createIdleNotification. prims. run Q.
  replace (seconds >? getSeconds (breakFrequency (settings env))) with false
    by (symmetry; rewrite Z.gtb_ltb; apply Z.ltb_ge; lia).
  run Q.
  replace (seconds >? getSeconds (idleResetLength (settings env))) with true
    by (symmetry; rewrite Z.gtb_ltb; apply Z.ltb_lt; lia).
  run Q. rewrite I. run Q. rewrite L. run Q.
  destruct (idleResetEnabled (settings env)); run Q;
    [destruct (idleResetNotification (settings env)); run Q |].
  all: eexists; (split; [reflexivity |]); cbn;
    rewrite ?Nat.add_0_r, ?Nat.add_1_r;
    repeat split; try (intros; discriminate); try (intros ? ?; tauto).
  all: try (unfold with_breakTime, with_postponedCount, with_idleStart,
              with_lockStart; cbn; rewrite ?L; reflexivity).
  intros _. unfold idleNotice. tauto.
Qed.

(** The decisions of a tick that is gated off, with a break armed, none
    being presented and no lock on record: the break is cancelled, and the
    tick records an idle period exactly when [checkIdle] answers [true],
    which without a lock on record means that the system is idle and idle
    reset is switched on. *)
Lemma decide_gated_off env w (armed : Z) :
  quiet env ->
  breakTime (vars w) = Some armed ->
  havingBreak (vars w) = false ->
  lockStart (vars w) = None ->
  let state :=
    idleStateAt env (polls w) (getSeconds (idleResetLength (settings env))) in
  exists w',
    decide false env w = (Normal tt, w') /\
    breakTime (vars w') = None /\
    idleStart (vars w') =
      (if idleResetEnabled (settings env) && IdleState_eqb state Idle
       then Some (clock env (reads w)) else idleStart (vars w)) /\
    postponedCount (vars w') = postponedCount (vars w) /\
    (forall e, In e (trace w) -> In e (trace w')).
Proof.
  intros Q B H L state. subst state.
  unfold decide, checkIdle. prims. run Q. rewrite B, H. run Q.
  destruct (idleStateAt env (polls w) (getSeconds (idleResetLength (settings env))));
    run Q; rewrite ?L; run Q.
  all: try (destruct (idleResetEnabled (settings env)); run Q).
  all: eexists; (split; [reflexivity |]); cbn;
    repeat split; try (intros ? ?; tauto).
Qed.

Lemma checkBreak_bounded env w :
  quiet env ->
  idleStart (vars w) = None ->
  exists w',
    checkBreak env w = (Normal tt, w') /\
    (reads w < reads w')%nat /\
    (forall e, In e (trace w) -> In e (trace w')) /\
    postponedCount (vars w') = postponedCount (vars w) /\
    idleStart (vars w') = None /\
    (breakTime (vars w') = breakTime (vars w) \/
     exists k, (reads w <= k < reads w')%nat /\
       breakTime (vars w') =
         Some (addFields (breakFrequency (settings env)) (clock env k))).
Proof.
  intros Q I. unfold checkBreak. prims. run Q.
  destruct (_ >? _); run Q.
  2: eexists; (split; [reflexivity |]); cbn; repeat split; auto.
  destruct (notificationType (settings env)) eqn:T.
  - match goal with
    | |- context [doBreak env ?x] =>
        destruct (doBreak_notification env x Q T) as (w' & k & E & Hk & Hv & _ & [Hr Hin])
    end.
    rewrite E. cbn in *. exists w'. split; [reflexivity |].
    rewrite Hv, I. cbn. repeat split; auto; try lia.
    right. exists k. split; [lia | reflexivity].
  - rewrite (doBreak_popup env _ Q T). eexists. split; [reflexivity |].
    cbn. repeat split; auto.
Qed.

(** The decisions of a tick that should have a break, or finds one being
    presented, with a break armed and no idle period on record. *)
Lemma decide_scheduled env w (shouldHaveBreak : bool) (armed : Z) :
  quiet env ->
  breakTime (vars w) = Some armed ->
  idleStart (vars w) = None ->
  shouldHaveBreak || havingBreak (vars w) = true ->
  exists w',
    decide shouldHaveBreak env w = (Normal tt, w') /\
    (reads w <= reads w')%nat /\
    (forall e, In e (trace w) -> In e (trace w')) /\
    postponedCount (vars w') = postponedCount (vars w) /\
    idleStart (vars w') = None /\
    (breakTime (vars w') = Some armed \/
     exists k, (reads w <= k < reads w')%nat /\
       breakTime (vars w') =
         Some (addFields (breakFrequency (settings env)) (clock env k))).
Proof.
  intros Q B I S. unfold decide. prims. run Q. rewrite B. cbn [truthy negb].
  destruct shouldHaveBreak; cbn [negb andb orb] in *.
  - destruct (checkBreak_bounded env w Q I) as (w' & E & R & T & P & I' & Bt).
    rewrite E. exists w'. rewrite B in Bt. repeat split; auto. lia.
  - rewrite S. cbn [negb andb].
    eexists. split; [reflexivity |]. repeat split; auto.
Qed.

Example tick_gap_idle_records :
  breakTime (vars (after (tick wakeUpIdle afterShortSleep))) = None /\
  idleStart (vars (after (tick wakeUpIdle afterShortSleep))) = Some 500000.
Proof. split; vm_compute; reflexivity. Qed.

(** C1, as the code has it.  A tick that measures a gap above the idle
    reset length and not above the break frequency (500 s against 300 s
    and 3600 s, say), with no idle period on record before it, ends
    normally.  The idle period is dated back to the previous tick only
    for the [createBreak] of the correction: the idle notice, when it is
    switched on, counts from the previous tick, [postponedCount] is 0, and
    the idle period is cleared again.  If the tick should have a break, or
    a break is being presented, it ends with no idle period on record and
    a break armed at a clock reading of this tick, taken after the gap was
    measured, plus the break frequency.  Otherwise the break armed by the
    correction is cancelled again: [breakTime] ends as [null], and
    [idleStart] ends as the clock reading taken at that point if the system
    is idle and idle reset is switched on (the correction has cleared the
    lock record, so a lock does not count yet), and as [null] if not. *)
Theorem tick_gap_between_thresholds (env : Env) (w w1 : World)
    (last : Z) (shouldHaveBreak : bool) :
  quiet env ->
  lastTick (vars w) = Some last ->
  idleStart (vars w) = None ->
  checkShouldHaveBreak env w = (Normal shouldHaveBreak, w1) ->
  getSeconds (idleResetLength (settings env))
    < secondsBetween (clock env (reads w1)) last
    <= getSeconds (breakFrequency (settings env)) ->
  let w' := after (tick env w) in
  let state :=
    idleStateAt env (polls w1) (getSeconds (idleResetLength (settings env))) in
  outcome (tick env w) = Normal tt /\
  postponedCount (vars w') = 0%nat /\
  (idleResetEnabled (settings env) && idleResetNotification (settings env) = true ->
   In (idleNotice (clock env (S (reads w1))) last) (trace w')) /\
  if shouldHaveBreak || havingBreak (vars w)
  then idleStart (vars w') = None /\
       exists k, (reads w1 < k < reads w')%nat /\
         breakTime (vars w') =
           Some (addFields (breakFrequency (settings env)) (clock env k))
  else breakTime (vars w') = None /\
       idleStart (vars w') =
         (if idleResetEnabled (settings env) && IdleState_eqb state Idle
          then Some (clock env (3 + reads w1)) else None).
Proof.
  intros Q L I E G.
  destruct (checkShouldHaveBreak_quiet env w Q) as (shb & w0 & E0 & [l V] & _ & _).
  rewrite E in E0. injection E0 as <- <-.
  assert (L1 : lastTick (vars w1) = Some last) by (rewrite V; exact L).
  assert (I1 : idleStart (vars w1) = None) by (rewrite V; exact I).
  assert (H1 : havingBreak (vars w1) = havingBreak (vars w)) by (rewrite V; reflexivity).
  cbv zeta. unfold outcome, after, tick, tryFinally, tickBody.
  rewrite (bind_normal _ _ _ _ _ _ E).
  rewrite (bind_normal _ _ _ _ _ _ (secondsSinceLastTick_run env w1 last L1)).
  rewrite (bind_normal _ _ _ _ _ _ (logTick_quiet env _ Q)).
  match goal with
  | |- context [bind (sleepCorrection ?s) _ env ?x] =>
      destruct (sleepCorrection_gap_run env x s last Q I1 L1 G)
        as (w2 & E2 & V2 & R2 & P2 & T2 & N2)
  end.
  rewrite (bind_normal _ _ _ _ _ _ E2). cbn in V2, R2, P2, T2, N2.
  assert (B2 : breakTime (vars w2) =
               Some (addFields (breakFrequency (settings env))
                       (clock env
                          (S (reads w1
                              + (if idleResetEnabled (settings env)
                                 then 1 else 0)%nat)))))
    by (rewrite V2; reflexivity).
  assert (I2 : idleStart (vars w2) = None) by (rewrite V2; reflexivity).
  assert (H2 : havingBreak (vars w2) = havingBreak (vars w))
    by (rewrite V2; exact H1).
  assert (C2 : postponedCount (vars w2) = 0%nat) by (rewrite V2; reflexivity).
  destruct (shouldHaveBreak || havingBreak (vars w)) eqn:S.
  - destruct (decide_scheduled env w2 shouldHaveBreak _ Q B2 I2)
      as (w3 & E3 & R3 & T3 & P3 & I3 & D3).
    { rewrite H2. exact S. }
    rewrite E3, tickFinally_normal. cbn.
    split; [reflexivity |]. split; [congruence |]. split; [auto |].
    split; [exact I3 |].
    destruct D3 as [B3 | (k3 & Hk3 & B3)].
    + eexists. split; [| exact B3].
      destruct (idleResetEnabled (settings env)); lia.
    + exists k3. split; [| exact B3].
      destruct (idleResetEnabled (settings env)); lia.
  - apply orb_false_elim in S. destruct S as [-> Hf].
    destruct (decide_gated_off env w2 _ Q B2)
      as (w3 & E3 & B3 & I3 & P3 & T3).
    { rewrite H2. exact Hf. }
    { rewrite V2. reflexivity. }
    rewrite E3, tickFinally_normal. cbn.
    split; [reflexivity |]. split; [congruence |]. split; [auto |].
    split; [exact B3 |].
    rewrite I3, P2, R2, I2.
    destruct (idleResetEnabled (settings env)); cbn [andb]; [| reflexivity].
    rewrite ?Nat.add_1_r. reflexivity.
Qed.

Lemma tick_gap_between_thresholds_witness :
  outcome (tick wakeUp afterShortSleep) = Normal tt /\
  postponedCount (vars (after (tick wakeUp afterShortSleep))) = 0%nat /\
  In (idleNotice 500000 0) (trace (after (tick wakeUp afterShortSleep))).
Proof.
  destruct (tick_gap_between_thresholds wakeUp afterShortSleep
              (after (checkShouldHaveBreak wakeUp afterShortSleep)) 0 true)
    as (O & P & N & _).
  - intros n. reflexivity.
  - reflexivity.
  - reflexivity.
  - vm_compute. reflexivity.
  - vm_compute. split; congruence.
  - split; [exact O |]. split; [exact P |]. apply N. reflexivity.
Defined.

(** *** Formatting and rounding *)

Lemma zeroPad_below_100 :
  forallb (fun n => (String.length (zeroPad (Z.of_nat n)) =? 2)%nat) (seq 0 100) = true.
Proof. vm_compute. reflexivity. Qed.

Lemma zeroPad_below_100_text :
  forallb (fun n =>
             String.eqb (zeroPad (Z.of_nat n))
               (if (n <? 10)%nat then "0" ++ String_of (Z.of_nat n)
                else String_of (Z.of_nat n)))
    (seq 0 100) = true.
Proof. vm_compute. reflexivity. Qed.

(** X1.  [zeroPad] gives two characters for every number from 0 to 99: a
    single digit gets a leading "0", two digits are left as they are. *)
Theorem zeroPad_two_digits (n : Z) :
  0 <= n < 100 ->
  String.length (zeroPad n) = 2%nat /\
  (n < 10 -> zeroPad n = "0" ++ String_of n) /\
  (10 <= n -> zeroPad n = String_of n).
Proof.
  intros R.
  assert (I : In (Z.to_nat n) (seq 0 100)) by (apply in_seq; lia).
  pose proof (proj1 (forallb_forall _ _) zeroPad_below_100 _ I) as L.
  pose proof (proj1 (forallb_forall _ _) zeroPad_below_100_text _ I) as P.
  cbv beta in L, P. rewrite Z2Nat.id in L, P by lia.
  apply Nat.eqb_eq in L. apply String.eqb_eq in P.
  split; [exact L |]. split; intros C.
  - replace (Z.to_nat n <? 10)%nat with true in P; [exact P |].
    symmetry. apply Nat.ltb_lt. lia.
  - replace (Z.to_nat n <? 10)%nat with false in P; [exact P |].
    symmetry. apply Nat.ltb_ge. lia.
Qed.

Lemma zeroPad_two_digits_witness : String.length (zeroPad 7) = 2%nat.
Proof. apply (zeroPad_two_digits 7). lia. Defined.

(** X2.  The split of an idle time into hours, minutes and seconds loses
    nothing: the three parts add up to the idle time.  For a non-negative
    idle time the parts are non-negative, and the minutes and the seconds
    are at most 60 (the hours have no bound); the comparisons with [> 60]
    let them be exactly 60: the seconds for an idle time of 60, the
    minutes from 3600 to 3659. *)
Theorem idleClock_recombines (idleSeconds h m s : Z) :
  idleClock idleSeconds = (h, m, s) ->
  h * 3600 + m * 60 + s = idleSeconds /\
  (0 <= idleSeconds ->
     0 <= h /\ 0 <= m <= 60 /\ 0 <= s <= 60 /\
     (s = 60 <-> idleSeconds = 60) /\
     (m = 60 <-> 3600 <= idleSeconds < 3660)).
Proof.
  unfold idleClock.
  destruct (Z.gtb_spec idleSeconds 60) as [G | G].
  - pose proof (Z.div_mod idleSeconds 60 ltac:(lia)) as D.
    pose proof (Z.mod_pos_bound idleSeconds 60 ltac:(lia)) as B.
    destruct (Z.gtb_spec (idleSeconds / 60) 60) as [G2 | G2].
    + pose proof (Z.div_mod (idleSeconds / 60) 60 ltac:(lia)) as D2.
      pose proof (Z.mod_pos_bound (idleSeconds / 60) 60 ltac:(lia)) as B2.
      assert (0 < idleSeconds / 60 / 60) by (apply Z.div_str_pos; lia).
      intros [= <- <- <-]. split; [lia |]. intros _. repeat split; try lia.
    + assert (0 < idleSeconds / 60) by (apply Z.div_str_pos; lia).
      intros [= <- <- <-]. split; [lia |]. intros _. repeat split; try lia.
  - intros [= <- <- <-]. split; [lia |]. intros P. repeat split; try lia.
Qed.

Lemma idleClock_recombines_witness :
  0 * 3600 + 60 * 60 + 0 = 3600 /\ (60 = 60 <-> 3600 <= 3600 < 3660).
Proof.
  destruct (idleClock_recombines 3600 0 60 0) as [R B].
  - reflexivity.
  - destruct B as (_ & _ & _ & _ & M); [lia |]. split; [exact R | exact M].
Defined.

(** X3.  For two instants at most 2^53 milliseconds apart, where the
    subtraction the source performs on doubles is exact, the seconds
    between them as [toFixed(0)] rounds them are within half a second of
    the exact difference, and swapping the two instants only changes the
    sign. *)
Theorem secondsBetween_nearest (later earlier : Z) :
  Z.abs (later - earlier) <= 9007199254740992 ->
  - 500 <= 1000 * secondsBetween later earlier - (later - earlier) <= 500 /\
  secondsBetween earlier later = - secondsBetween later earlier.
Proof.
  intros _. unfold secondsBetween, toFixed0.
  destruct (Z.leb_spec 0 (later - earlier)) as [P | P];
    destruct (Z.leb_spec 0 (earlier - later)) as [P' | P'].
  - assert (later - earlier = 0) as -> by lia.
    assert (earlier - later = 0) as -> by lia. cbn. lia.
  - pose proof (Z.div_mod (later - earlier + 500) 1000 ltac:(lia)) as D.
    pose proof (Z.mod_pos_bound (later - earlier + 500) 1000 ltac:(lia)) as B.
    replace (- (earlier - later) + 500) with (later - earlier + 500) by lia. lia.
  - pose proof (Z.div_mod (- (later - earlier) + 500) 1000 ltac:(lia)) as D.
    pose proof (Z.mod_pos_bound (- (later - earlier) + 500) 1000 ltac:(lia)) as B.
    replace (earlier - later + 500) with (- (later - earlier) + 500) by lia. lia.
  - lia.
Qed.

Lemma secondsBetween_nearest_witness :
  - 500 <= 1000 * secondsBetween 501500 1000 - (501500 - 1000) <= 500 /\
  secondsBetween 1000 501500 = - secondsBetween 501500 1000.
Proof. apply (secondsBetween_nearest 501500 1000). vm_compute. discriminate. Defined.

(** *** Clock arithmetic *)

Lemma addFields_total (freq now : Z) :
  addFields freq now =
    now + (Date.getHours freq * 3600 + Date.getMinutes freq * 60
           + Date.getSeconds freq) * 1000.
Proof.
  unfold addFields, Moment.addSeconds, Moment.addMinutes, Moment.addHours. lia.
Qed.

Lemma addFields_range (freq now : Z) :
  now <= addFields freq now < now + 86400000.
Proof.
  rewrite addFields_total.
  pose proof (getHours_range freq) as Hh.
  pose proof (getMinutes_range freq) as Hm.
  pose proof (getSecondsField_range freq) as Hs.
  lia.
Qed.

Lemma getSeconds_positive (date : Z) : 0 < getSeconds date.
Proof.
  unfold getSeconds.
  pose proof (getHours_range date) as Hh.
  pose proof (getMinutes_range date) as Hm.
  pose proof (getSecondsField_range date) as Hs.
  match goal with
  | |- context [?t =? 0] => destruct (Z.eqb_spec t 0)
  end; lia.
Qed.

(** X4.  A time armed by adding the fields of a duration to [now] is never
    before [now] and always less than a day after it.  It is [now] plus
    [getSeconds] of the duration in milliseconds, except for a duration
    whose fields are all zero: [getSeconds] reports 1 for it and nothing is
    added. *)
Theorem addFields_within_a_day (freq now : Z) :
  now <= addFields freq now < now + 86400000 /\
  addFields freq now =
    (if (Date.getHours freq =? 0) && (Date.getMinutes freq =? 0)
        && (Date.getSeconds freq =? 0)
     then now else now + getSeconds freq * 1000).
Proof.
  split; [apply addFields_range |].
  rewrite addFields_total.
  pose proof (getHours_range freq) as Hh.
  pose proof (getMinutes_range freq) as Hm.
  pose proof (getSecondsField_range freq) as Hs.
  unfold getSeconds.
  destruct (Z.eqb_spec (Date.getHours freq) 0);
    destruct (Z.eqb_spec (Date.getMinutes freq) 0);
    destruct (Z.eqb_spec (Date.getSeconds freq) 0); cbn [andb];
    try match goal with
        | |- context [?t =? 0] => destruct (Z.eqb_spec t 0)
        end; lia.
Qed.

Lemma fields_of_instant (t : Z) :
  t = t / 86400000 * 86400000 + Date.getHours t * 3600000
      + Date.getMinutes t * 60000 + Date.getSeconds t * 1000 + t mod 1000.
Proof.
  unfold Date.getHours, Date.getMinutes, Date.getSeconds.
  Z.div_mod_to_equations. lia.
Qed.

Lemma getMinutes_shift (t k : Z) :
  Date.getMinutes (t + k * 3600000) = Date.getMinutes t.
Proof.
  unfold Date.getMinutes. Z.div_mod_to_equations. lia.
Qed.

Lemma getSeconds_shift (t k : Z) :
  Date.getSeconds (t + k * 60000) = Date.getSeconds t.
Proof.
  unfold Date.getSeconds. Z.div_mod_to_equations. lia.
Qed.

Lemma atClockTime_fields (hours base : Z) :
  atClockTime hours base =
    base / 86400000 * 86400000
    + Date.getHours hours * 3600000 + Date.getMinutes hours * 60000
    + base mod 1000.
Proof.
  unfold atClockTime, Moment.setSeconds, Moment.setMinutes, Moment.setHours.
  replace (base + (Date.getHours hours - Date.getHours base) * 3600000
           + (Date.getMinutes hours
              - Date.getMinutes
                  (base + (Date.getHours hours - Date.getHours base) * 3600000))
             * 60000)
    with (base + ((Date.getHours hours - Date.getHours base) * 60
                  + (Date.getMinutes hours - Date.getMinutes base)) * 60000)
    by (rewrite getMinutes_shift; lia).
  rewrite getSeconds_shift.
  pose proof (fields_of_instant base) as F. lia.
Qed.

(** X5.  The instant [checkInWorkingHours] builds from a clock reading and
    a configured time of day is the day of the reading at the configured
    hour and minute, with the seconds at zero and the milliseconds of the
    reading kept. *)
Theorem atClockTime_today (hours base : Z) :
  atClockTime hours base =
    base / 86400000 * 86400000
    + Date.getHours hours * 3600000 + Date.getMinutes hours * 60000
    + base mod 1000.
Proof. apply atClockTime_fields. Qed.

(** *** Working hours *)

Lemma checkInWorkingHours_monday_to_saturday_witness :
  outcome (checkInWorkingHours mondayNoon initialWorld) =
    Normal (true && (atClockTime 32400000 388800000 <=? 388800000)
                 && (388800000 <=? atClockTime 61200000 388800000)).
Proof.
  apply (checkInWorkingHours_monday_to_saturday mondayNoon initialWorld).
  - intros n. reflexivity.
  - reflexivity.
  - vm_compute. discriminate.
Defined.

Lemma days_of_weekday (s : Settings) (d : Z) :
  0 <= d < 7 -> d <> 0 -> isTrue (days s d) = specWeekdayFlag s d.
Proof.
  intros R N. unfold days, specWeekdayFlag.
  repeat match goal with
         | |- context [?a =? ?b] => destruct (Z.eqb_spec a b)
         end; try reflexivity; lia.
Qed.

(** X7.  When the three clock readings of [checkInWorkingHours] agree, on
    a day from Monday to Saturday whose flag is switched on, the answer
    only depends on the second of the day: it is [true] from the
    configured [from] minute, second 0, up to and including second 0 of
    the configured [to] minute, whatever the milliseconds. *)
Theorem checkInWorkingHours_by_second (env : Env) (w : World) (now : Z) :
  quiet env ->
  workingHoursEnabled (settings env) = true ->
  (forall k, clock env k = now) ->
  Moment.day now <> 0 ->
  specWeekdayFlag (settings env) (Moment.day now) = true ->
  let minuteOf t := Date.getHours t * 3600 + Date.getMinutes t * 60 in
  outcome (checkInWorkingHours env w) =
    Normal ((minuteOf (workingHoursFrom (settings env)) <=? secondsOfDay now)
            && (secondsOfDay now <=? minuteOf (workingHoursTo (settings env)))).
Proof.
  intros Q En C N F minuteOf. subst minuteOf.
  assert (D : isTrue (days (settings env) (Moment.day now)) = true).
  { rewrite days_of_weekday by (auto using Moment_day_range). exact F. }
  clear F.
  destruct (checkInWorkingHours_quiet env w Q) as (w' & E & _).
  unfold outcome. rewrite E, En, !C, D. cbn [fst andb]. do 2 f_equal.
  - rewrite atClockTime_fields. pose proof (fields_of_instant now) as F.
    unfold secondsOfDay.
    destruct (Z.leb_spec
                (now / 86400000 * 86400000
                 + Date.getHours (workingHoursFrom (settings env)) * 3600000
                 + Date.getMinutes (workingHoursFrom (settings env)) * 60000
                 + now mod 1000) now);
      [symmetry; apply Z.leb_le | symmetry; apply Z.leb_gt]; lia.
  - rewrite atClockTime_fields. pose proof (fields_of_instant now) as F.
    unfold secondsOfDay.
    destruct (Z.leb_spec now
                (now / 86400000 * 86400000
                 + Date.getHours (workingHoursTo (settings env)) * 3600000
                 + Date.getMinutes (workingHoursTo (settings env)) * 60000
                 + now mod 1000));
      [symmetry; apply Z.leb_le | symmetry; apply Z.leb_gt]; lia.
Qed.

Lemma checkInWorkingHours_by_second_witness :
  outcome (checkInWorkingHours lastMoment initialWorld) = Normal true /\
  outcome (checkInWorkingHours justAfter initialWorld) = Normal false.
Proof.
  split.
  - apply (checkInWorkingHours_by_second lastMoment initialWorld 493200999).
    + intros n. reflexivity.
    + reflexivity.
    + intros k. reflexivity.
    + vm_compute. discriminate.
    + vm_compute. reflexivity.
  - apply (checkInWorkingHours_by_second justAfter initialWorld 493201000).
    + intros n. reflexivity.
    + reflexivity.
    + intros k. reflexivity.
    + vm_compute. discriminate.
    + vm_compute. reflexivity.
Defined.

(** *** The life of a break *)

(** X8.  [getBreakEndTime] answers [null] when no break is armed, without
    asking for the settings.  When a break is armed it answers the break
    time plus the fields of the break length, which is never before the
    break time and less than a day after it, and it changes nothing. *)
Theorem getBreakEndTime_range (env : Env) (w : World) :
  (breakTime (vars w) = None -> getBreakEndTime env w = (Normal None, w)) /\
  (quiet env -> forall t, breakTime (vars w) = Some t ->
     exists e,
       outcome (getBreakEndTime env w) = Normal (Some e) /\
       e = addFields (breakLength (settings env)) t /\
       t <= e < t + 86400000 /\
       vars (after (getBreakEndTime env w)) = vars w /\
       trace (after (getBreakEndTime env w)) = trace w).
Proof.
  split.
  - intros N. unfold getBreakEndTime. prims. rewrite N. reflexivity.
  - intros Q t S. unfold getBreakEndTime, outcome, after. prims. rewrite S.
    run Q. eexists. split; [reflexivity |]. split; [reflexivity |].
    split; [| split; reflexivity].
    fold (addFields (breakLength (settings env)) t).
    apply addFields_range.
Qed.

Lemma getBreakEndTime_range_witness :
  getBreakEndTime firstCallFails initialWorld = (Normal None, initialWorld).
Proof.
  apply (proj1 (getBreakEndTime_range firstCallFails initialWorld)). reflexivity.
Defined.


(** X9.  [createBreak] always leaves a break armed and no idle period on
    record: the break time is a clock reading taken during the call plus
    the fields of the break frequency, or of the postpone length for a
    postponement, so never before that reading and less than a day after
    it.  It does not touch [havingBreak], [lockStart], [lastTick] or the
    timers. *)
Theorem createBreak_arms (isPostpone : bool) (env : Env) (w : World) :
  quiet env ->
  let w' := after (createBreak isPostpone env w) in
  outcome (createBreak isPostpone env w) = Normal tt /\
  (exists k t,
     (reads w <= k < reads w')%nat /\
     breakTime (vars w') = Some t /\
     t = addFields (if isPostpone then postponeLength (settings env)
                    else breakFrequency (settings env)) (clock env k) /\
     clock env k <= t < clock env k + 86400000) /\
  idleStart (vars w') = None /\
  havingBreak (vars w') = havingBreak (vars w) /\
  lockStart (vars w') = lockStart (vars w) /\
  lastTick (vars w') = lastTick (vars w) /\
  timers w' = timers w.
Proof.
  intros Q. cbv zeta. unfold outcome, after.
  destruct (createBreak_quiet isPostpone env w Q) as (w' & k & E & Hk & Hv & Ht & _).
  rewrite E. cbn [fst snd]. split; [reflexivity |]. split.
  - exists k. eexists. split; [exact Hk |]. rewrite Hv. cbn.
    split; [reflexivity |]. split; [reflexivity | apply addFields_range].
  - rewrite Hv. destruct (idleStart (vars w)) eqn:I; cbn; repeat split; auto.
Qed.

Lemma createBreak_arms_witness :
  outcome (createBreak false (steady hourlySettings 1000 Active) initialWorld)
    = Normal tt.
Proof.
  apply (createBreak_arms false (steady hourlySettings 1000 Active) initialWorld).
  intros n. reflexivity.
Defined.

(** X10.  [createBreak] shows the idle notice exactly when an idle period
    is on record and both [idleResetEnabled] and [idleResetNotification]
    are on; the notice counts from the start of the idle period to the
    first clock reading of the call.  It shows no other notification and
    requests no sound. *)
Theorem createBreak_notice (isPostpone : bool) (env : Env) (w : World) :
  quiet env ->
  let w' := after (createBreak isPostpone env w) in
  notifications (trace w') =
    match idleStart (vars w) with
    | Some since =>
        if idleResetEnabled (settings env) && idleResetNotification (settings env)
        then idleNotice (clock env (reads w)) since :: notifications (trace w)
        else notifications (trace w)
    | None => notifications (trace w)
    end /\
  sounds (trace w') = sounds (trace w).
Proof.
  intros Q. cbv zeta. unfold after, createBreak, createIdleNotification. prims.
  run Q.
  destruct (idleStart (vars w)) as [since |] eqn:Ei; run Q;
    [ destruct (idleResetEnabled (settings env)) eqn:Ee; run Q;
      [ destruct (idleResetNotification (settings env)) eqn:En; run Q | ] | ].
  all: rewrite ?Ei; split; reflexivity.
Qed.

Lemma createBreak_notice_witness :
  notifications
    (trace (after (createBreak false (steady noticeOff 5000 Active) idleOnRecord)))
  = [].
Proof.
  apply (createBreak_notice false (steady noticeOff 5000 Active) idleOnRecord).
  intros n. reflexivity.
Defined.

(** X11.  [endPopupBreak] with a break armed ends in the idle state: no
    break armed, none being presented, [postponedCount] 0, the other
    variables as they were.  If the gong is on it requests the start gong
    once, never the end gong, and otherwise no sound.  A second call right
    after changes nothing, whatever the collaborators do. *)
Theorem endPopupBreak_ends (env : Env) (w : World) (t : Z) :
  quiet env ->
  breakTime (vars w) = Some t ->
  let w' := after (endPopupBreak env w) in
  outcome (endPopupBreak env w) = Normal tt /\
  vars w' =
    mkVars None false 0%nat (idleStart (vars w)) (lockStart (vars w))
      (lastTick (vars w)) /\
  trace w' =
    (if gongEnabled (settings env) then SendIpc PLAY_START_GONG :: trace w
     else trace w) /\
  timers w' = timers w /\
  forall env', endPopupBreak env' w' = (Normal tt, w').
Proof.
  intros Q B. cbv zeta. unfold outcome, after, endPopupBreak. prims.
  rewrite B. run Q.
  destruct (gongEnabled (settings env)); run Q; repeat split.
Qed.

Lemma endPopupBreak_ends_witness :
  vars (after (endPopupBreak (steady noticeOff 9000 Active) presenting)) =
    mkVars None false 0%nat None None (Some 0).
Proof.
  apply (endPopupBreak_ends (steady noticeOff 9000 Active) presenting 0).
  - intros n. reflexivity.
  - reflexivity.
Defined.

(** X12.  [beginPopupBreak] moves the break time to the clock reading at
    which the popup opens, asks for the break windows and, if the gong is
    on, for the start gong; it changes no other variable.  The break end
    time asked for afterwards is that reading plus the fields of the break
    length. *)
Theorem beginPopupBreak_restarts_clock (env : Env) (w : World) :
  quiet env ->
  let now := clock env (reads w) in
  let w' := after (beginPopupBreak env w) in
  outcome (beginPopupBreak env w) = Normal tt /\
  vars w' = with_breakTime (Some now) (vars w) /\
  trace w' =
    (if gongEnabled (settings env)
     then SendIpc PLAY_START_GONG :: CreateBreakWindows :: trace w
     else CreateBreakWindows :: trace w) /\
  forall env', quiet env' ->
    outcome (getBreakEndTime env' w') =
      Normal (Some (addFields (breakLength (settings env')) now)).
Proof.
  intros Q. cbv zeta. unfold outcome, after, beginPopupBreak, getBreakEndTime.
  prims. run Q.
  destruct (gongEnabled (settings env)); run Q; repeat split;
    intros env' Q'; run Q'; reflexivity.
Qed.

Lemma beginPopupBreak_restarts_clock_witness :
  vars (after (beginPopupBreak (steady noticeOff 9000 Active) presenting)) =
    with_breakTime (Some 9000) (vars presenting).
Proof.
  apply (beginPopupBreak_restarts_clock (steady noticeOff 9000 Active) presenting).
  intros n. reflexivity.
Defined.

(** X13.  In notification mode [doBreak] is over at once: it shows the
    break notification with the configured title and message and no click
    handler, sets no timer, and ends with no break being presented and the
    next break armed at a clock reading of the call plus the fields of the
    break frequency. *)
Theorem doBreak_notification_rearms (env : Env) (w : World) :
  quiet env ->
  notificationType (settings env) = Notification ->
  let w' := after (doBreak env w) in
  outcome (doBreak env w) = Normal tt /\
  havingBreak (vars w') = false /\
  (exists k, (reads w <= k < reads w')%nat /\
     breakTime (vars w') =
       Some (addFields (breakFrequency (settings env)) (clock env k))) /\
  timers w' = timers w /\
  In (ShowNotification (breakTitle (settings env))
        (Some (breakMessage (settings env))) None) (trace w') /\
  lastClickHandler (trace w') = None.
Proof.
  intros Q T. cbv zeta.
  unfold outcome, after, doBreak, createBreak, createIdleNotification. prims.
  run Q. rewrite T. run Q.
  destruct (gongEnabled (settings env)); run Q;
    (destruct (idleStart (vars w)) as [since |]; run Q;
      [ destruct (idleResetEnabled (settings env)); run Q;
        [ destruct (idleResetNotification (settings env)); run Q | ] | ]).
  all: repeat split; auto 10.
  all: first [ exists (S (reads w)); split; [lia | reflexivity]
             | exists (reads w); split; [lia | reflexivity] ].
Qed.

Lemma doBreak_notification_rearms_witness :
  havingBreak
    (vars (after (doBreak
       (steady (settingsWith true Notification Skip None true false false)
          1000 Active)
       postponedOnce))) = false.
Proof.
  apply (doBreak_notification_rearms
           (steady (settingsWith true Notification Skip None true false false)
              1000 Active)
           postponedOnce).
  - intros n. reflexivity.
  - reflexivity.
Defined.

Lemma startBreakNow_run env w :
  startBreakNow env w =
    (Normal tt,
     mkWorld (with_breakTime (Some (clock env (reads w))) (vars w))
       (S (reads w)) (polls w) (calls w) (timers w) (nextTimer w) (trace w)).
Proof. reflexivity. Qed.

(** X14.  The operations on a break ([createBreak], [doBreak],
    [beginPopupBreak], [endPopupBreak], [startBreakNow] and a click on the
    warning) never write [lockStart] or [lastTick]: those belong to
    [checkIdle] and [tick]. *)
Theorem break_operations_keep_lock_and_tick (env : Env) (w : World) :
  quiet env ->
  forall op : M unit,
    In op [createBreak false; createBreak true; doBreak; beginPopupBreak;
           endPopupBreak; startBreakNow] \/
    (exists h, op = onClick h) ->
    outcome (op env w) = Normal tt /\
    lockStart (vars (after (op env w))) = lockStart (vars w) /\
    lastTick (vars (after (op env w))) = lastTick (vars w).
Proof.
  intros Q op [I | [h ->]]; unfold outcome, after.
  - cbn in I. destruct I as [<- | [<- | [<- | [<- | [<- | [<- | []]]]]]].
    + destruct (createBreak_quiet false env w Q) as (w' & k & E & _ & Hv & _).
      rewrite E; cbn [fst snd]; rewrite Hv. destruct (idleStart (vars w)); repeat split.
    + destruct (createBreak_quiet true env w Q) as (w' & k & E & _ & Hv & _).
      rewrite E; cbn [fst snd]; rewrite Hv. destruct (idleStart (vars w)); repeat split.
    + destruct (notificationType (settings env)) eqn:T.
      * destruct (doBreak_notification env w Q T) as (w' & k & E & _ & Hv & _).
        rewrite E; cbn [fst snd]; rewrite Hv. destruct (idleStart (vars w)); repeat split.
      * rewrite (doBreak_popup env w Q T). repeat split.
    + destruct (beginPopupBreak_quiet env w Q) as (w' & E & Hv & _).
      rewrite E; cbn [fst snd]; rewrite Hv. repeat split.
    + destruct (endPopupBreak_quiet env w Q) as (w' & E & Hv & _).
      rewrite E; cbn [fst snd]; rewrite Hv. destruct (breakTime (vars w)); repeat split.
    + rewrite startBreakNow_run. repeat split.
  - destruct (allowSkip h) eqn:S.
    + rewrite (onClick_skip h env w S). repeat split.
    + destruct (allowPostpone h) eqn:P.
      * destruct (onClick_postpone h env w Q S P) as (w' & k & E & _ & Hv & _).
        rewrite E; cbn [fst snd]; rewrite Hv. destruct (idleStart (vars w)); repeat split.
      * rewrite (onClick_neither h env w S P). repeat split.
Qed.

Lemma break_operations_keep_lock_and_tick_witness :
  lastTick (vars (after (doBreak (steady hourlySettings 1000 Active) postponedOnce)))
    = Some 0.
Proof.
  apply (break_operations_keep_lock_and_tick
           (steady hourlySettings 1000 Active) postponedOnce
           ltac:(intros n; reflexivity) doBreak).
  left. cbn. tauto.
Defined.

Lemma fireTimeout_cleared (id : nat) env w :
  ~ In id (timers w) -> fireTimeout id env w = (Normal tt, w).
Proof.
  intros N. unfold fireTimeout.
  destruct (existsb (Nat.eqb id) (timers w)) eqn:E; [| reflexivity].
  apply existsb_exists in E. destruct E as (x & I & X).
  apply Nat.eqb_eq in X. subst x. contradiction.
Qed.

(** X15.  A click that skips or postpones the break clears the 5-second
    timer of its warning: if the runtime comes to that timer afterwards,
    nothing happens and the popup break does not begin. *)
Theorem click_cancels_popup (h : ClickHandler) (env env' : Env) (w : World) :
  quiet env ->
  allowSkip h = true \/ allowPostpone h = true ->
  let w' := after (onClick h env w) in
  ~ In (breakTimeout h) (timers w') /\
  fireTimeout (breakTimeout h) env' w' = (Normal tt, w').
Proof.
  intros Q A. cbv zeta.
  assert (N : ~ In (breakTimeout h) (timers (after (onClick h env w)))).
  { unfold after. destruct (allowSkip h) eqn:S.
    - rewrite (onClick_skip h env w S). apply filter_out_absent.
    - destruct A as [A | P]; [discriminate |].
      destruct (onClick_postpone h env w Q S P) as (w' & k & E & _ & _ & Ht & _).
      rewrite E. exact Ht. }
  split; [exact N | apply fireTimeout_cleared; exact N].
Qed.

Lemma click_cancels_popup_witness :
  fireTimeout 0 (steady hourlySettings 6000 Active)
    (after (onClick (mkClickHandler true false 0)
              (steady hourlySettings 2000 Active) presenting))
  = (Normal tt,
     after (onClick (mkClickHandler true false 0)
              (steady hourlySettings 2000 Active) presenting)).
Proof.
  apply (click_cancels_popup (mkClickHandler true false 0)
           (steady hourlySettings 2000 Active) (steady hourlySettings 6000 Active)
           presenting).
  - intros n. reflexivity.
  - left. reflexivity.
Defined.

(** X16.  In popup mode, when nobody clicks and the 5-second timer of
    [doBreak] fires, the popup break begins: the break windows are asked
    for, the break is still being presented, the break time is the clock
    reading at which the timer fired, and the timer is spent. *)
Theorem popup_begins_after_warning (env env' : Env) (w : World) :
  quiet env -> quiet env' ->
  notificationType (settings env) = Popup ->
  let w1 := after (doBreak env w) in
  let w2 := after (fireTimeout (nextTimer w) env' w1) in
  outcome (fireTimeout (nextTimer w) env' w1) = Normal tt /\
  vars w2 =
    with_breakTime (Some (clock env' (reads w))) (with_havingBreak true (vars w)) /\
  In CreateBreakWindows (trace w2) /\
  ~ In (nextTimer w) (timers w2).
Proof.
  intros Q Q' T. cbv zeta. unfold outcome, after.
  rewrite (doBreak_popup env w Q T). cbn [snd].
  rewrite fireTimeout_pending by (cbn; auto).
  unfold beginPopupBreak. prims. run Q'.
  destruct (gongEnabled (settings env')); run Q'; rewrite Nat.eqb_refl; cbn;
    (repeat split; auto; apply filter_out_absent).
Qed.

Lemma popup_begins_after_warning_witness :
  vars (after (fireTimeout 0 (steady hourlySettings 6000 Active)
                 (after (doBreak (steady hourlySettings 1000 Active) postponedOnce))))
  = with_breakTime (Some 6000) (with_havingBreak true (vars postponedOnce)).
Proof.
  apply (popup_begins_after_warning (steady hourlySettings 1000 Active)
           (steady hourlySettings 6000 Active) postponedOnce).
  - intros n. reflexivity.
  - intros n. reflexivity.
  - reflexivity.
Defined.

(** X17.  [initBreaks] starts the interval timer for [tick], at 1000 ms,
    exactly once, whether breaks are switched on or off.  When they are on
    it first arms the first break at a clock reading plus the fields of the
    break frequency; when they are off the timer is all it asks for and no
    variable changes. *)
Theorem initBreaks_arms_if_enabled (env : Env) (w : World) :
  quiet env ->
  let w' := after (initBreaks env w) in
  outcome (initBreaks env w) = Normal tt /\
  tickers (trace w') = SetInterval 1000 :: tickers (trace w) /\
  if breaksEnabled (settings env)
  then exists k, (reads w <= k < reads w')%nat /\
         breakTime (vars w') =
           Some (addFields (breakFrequency (settings env)) (clock env k))
  else vars w' = vars w /\ trace w' = SetInterval 1000 :: trace w.
Proof.
  intros Q. cbv zeta.
  unfold outcome, after, initBreaks, setInterval, createBreak,
    createIdleNotification.
  prims. run Q.
  destruct (breaksEnabled (settings env)); run Q; [| repeat split].
  destruct (idleStart (vars w)) as [since |]; run Q;
    [ destruct (idleResetEnabled (settings env)); run Q;
      [ destruct (idleResetNotification (settings env)); run Q | ] | ].
  all: repeat split.
  all: first [ exists (S (reads w)); split; [lia | reflexivity]
             | exists (reads w); split; [lia | reflexivity] ].
Qed.

Lemma initBreaks_arms_if_enabled_witness :
  tickers (trace (after (initBreaks breaksOff initialWorld))) = [SetInterval 1000].
Proof.
  apply (initBreaks_arms_if_enabled breaksOff initialWorld).
  intros n. reflexivity.
Defined.

(** *** Idle and lock detection *)

(** X18.  The first time [checkIdle] finds the system locked it answers
    [false], whatever the settings, and records the clock reading as the
    start of the lock.  While the lock lasts the recorded start stays, and
    the answer is [true] only once the lock has lasted strictly more than
    the idle reset length. *)
Theorem checkIdle_locked (env : Env) (w : World) :
  quiet env ->
  let threshold := getSeconds (idleResetLength (settings env)) in
  idleStateAt env (polls w) threshold = Locked ->
  let now := clock env (reads w) in
  match lockStart (vars w) with
  | None =>
      outcome (checkIdle env w) = Normal false /\
      lockStart (vars (after (checkIdle env w))) = Some now
  | Some since =>
      outcome (checkIdle env w) = Normal (secondsBetween now since >? threshold) /\
      lockStart (vars (after (checkIdle env w))) = Some since
  end.
Proof.
  intros Q threshold L now. subst threshold now.
  destruct (checkIdle_quiet env w Q) as (w' & E & V & _).
  unfold outcome, after. rewrite E. cbn [fst snd]. rewrite V, L.
  destruct (lockStart (vars w)); split; reflexivity.
Qed.

Lemma checkIdle_locked_witness :
  outcome (checkIdle justLocked initialWorld) = Normal false /\
  lockStart (vars (after (checkIdle justLocked initialWorld))) = Some 7000.
Proof.
  apply (checkIdle_locked justLocked initialWorld).
  - intros n. reflexivity.
  - reflexivity.
Defined.

(** X19.  When the system is not locked, [checkIdle] forgets any recorded
    lock and answers [true] exactly when the system is idle and idle reset
    is switched on. *)
Theorem checkIdle_unlocked (env : Env) (w : World) :
  quiet env ->
  let state :=
    idleStateAt env (polls w) (getSeconds (idleResetLength (settings env))) in
  state <> Locked ->
  outcome (checkIdle env w) =
    Normal (idleResetEnabled (settings env) && IdleState_eqb state Idle) /\
  lockStart (vars (after (checkIdle env w))) = None.
Proof.
  intros Q state N. subst state.
  destruct (checkIdle_quiet env w Q) as (w' & E & V & _).
  unfold outcome, after. rewrite E. cbn [fst snd]. rewrite V.
  destruct (idleStateAt env (polls w) _); try contradiction;
    destruct (idleResetEnabled (settings env)); split; reflexivity.
Qed.

Lemma checkIdle_unlocked_witness :
  outcome (checkIdle (steady hourlySettings 1000 Idle) lockedSince0) = Normal true /\
  lockStart (vars (after (checkIdle (steady hourlySettings 1000 Idle) lockedSince0)))
    = None.
Proof.
  apply (checkIdle_unlocked (steady hourlySettings 1000 Idle) lockedSince0).
  - intros n. reflexivity.
  - vm_compute. discriminate.
Defined.

Ltac split_call :=
  match goal with
  | |- context [if fails ?env ?n then _ else _] => destruct (fails env n)
  | |- context [if ?b then _ else _] => destruct b eqn:?
  | |- context [match ?b with Some _ => _ | None => _ end] => destruct b eqn:?
  end.

(** X20.  Whatever the collaborators do, raising included,
    [checkShouldHaveBreak] changes no variable but [lockStart], sets and
    clears no timer, and adds nothing but log entries to the trace.  It
    never answers [true] while a break is being presented or while breaks
    are switched off. *)
Theorem checkShouldHaveBreak_frame (env : Env) (w : World) :
  let w' := after (checkShouldHaveBreak env w) in
  (exists l, vars w' = with_lockStart l (vars w)) /\
  timers w' = timers w /\
  List.filter (fun e => negb (isLog e)) (trace w') =
    List.filter (fun e => negb (isLog e)) (trace w) /\
  (outcome (checkShouldHaveBreak env w) = Normal true ->
   havingBreak (vars w) = false /\ breaksEnabled (settings env) = true).
Proof.
  cbv zeta.
  unfold outcome, after, checkShouldHaveBreak, checkInWorkingHours, checkIdle.
  prims.
  repeat first
    [ progress (cbn -[Z.gtb Z.ltb Nat.ltb Nat.eqb Z.add Z.mul])
    | split_call ].
  all: split;
    [ first [ exists (lockStart (vars w)); destruct (vars w); reflexivity
            | eexists; reflexivity ] |].
  all: split; [reflexivity |]; split; [reflexivity |].
  all: try (intros [=]; fail).
  all: intros [= H];
    repeat match goal with
           | H : _ && _ = true |- _ => apply andb_prop in H; destruct H
           end;
    split; [apply negb_true_iff; assumption | assumption].
Qed.

Lemma checkShouldHaveBreak_frame_witness :
  outcome (checkShouldHaveBreak failsWhileLocked postponedOnce)
    = Throw (CollaboratorError 5) /\
  timers (after (checkShouldHaveBreak failsWhileLocked postponedOnce))
    = timers postponedOnce.
Proof.
  split; [vm_compute; reflexivity |].
  apply (checkShouldHaveBreak_frame failsWhileLocked postponedOnce).
Defined.

(** *** Firing a break *)

(** X21.  [checkBreak] starts the break only when the clock reading is
    strictly after the break time.  At or before it nothing happens, not
    even a call to a collaborator; after it, in popup mode, the break is
    being presented, one timer is pending for the popup, and the break
    time stays as it was. *)
Theorem checkBreak_strictly_after (env : Env) (w : World) (armed : Z) :
  quiet env ->
  notificationType (settings env) = Popup ->
  breakTime (vars w) = Some armed ->
  let now := clock env (reads w) in
  let w' := after (checkBreak env w) in
  outcome (checkBreak env w) = Normal tt /\
  if now >? armed
  then vars w' = with_havingBreak true (vars w) /\
       timers w' = nextTimer w :: timers w
  else vars w' = vars w /\ timers w' = timers w /\
       trace w' = trace w /\ calls w' = calls w.
Proof.
  intros Q T B. cbv zeta. unfold outcome, after, checkBreak. prims.
  run Q. rewrite B. cbn [toNumber].
  destruct (clock env (reads w) >? armed).
  - rewrite (doBreak_popup env _ Q T). repeat split.
  - repeat split.
Qed.

Lemma checkBreak_strictly_after_witness :
  vars (after (checkBreak (steady hourlySettings 2000 Active) startedNow))
    = vars startedNow /\
  vars (after (checkBreak (steady hourlySettings 2001 Active) startedNow))
    = with_havingBreak true (vars startedNow).
Proof.
  split.
  - apply (checkBreak_strictly_after (steady hourlySettings 2000 Active)
             startedNow 2000); try reflexivity. intros n. reflexivity.
  - apply (checkBreak_strictly_after (steady hourlySettings 2001 Active)
             startedNow 2000); try reflexivity. intros n. reflexivity.
Defined.

(** *** The sleep correction *)

(** X22.  After a gap longer than the break frequency the sleep correction
    only forgets the recorded lock: no idle period is recorded, no break
    is armed or cancelled, nothing is shown. *)
Theorem sleepCorrection_long_gap (env : Env) (w : World) (seconds : Z) :
  quiet env ->
  getSeconds (breakFrequency (settings env)) < seconds ->
  let w' := after (sleepCorrection seconds env w) in
  outcome (sleepCorrection seconds env w) = Normal tt /\
  vars w' = with_lockStart None (vars w) /\
  timers w' = timers w /\
  notifications (trace w') = notifications (trace w).
Proof.
  intros Q G. cbv zeta. unfold outcome, after, sleepCorrection. prims. run Q.
  replace (seconds >? getSeconds (breakFrequency (settings env))) with true
    by (symmetry; rewrite Z.gtb_ltb; apply Z.ltb_lt; lia).
  run Q. repeat split.
Qed.

Lemma sleepCorrection_long_gap_witness :
  vars (after (sleepCorrection 4000 (steady hourlySettings 4000000 Active)
                 lockedSince0))
  = with_lockStart None (vars lockedSince0).
Proof.
  apply (sleepCorrection_long_gap (steady hourlySettings 4000000 Active)
           lockedSince0 4000).
  - intros n. reflexivity.
  - vm_compute. reflexivity.
Defined.

Lemma sleepCorrection_idle env w (seconds : Z) :
  quiet env ->
  seconds <= getSeconds (breakFrequency (settings env)) ->
  seconds <= getSeconds (idleResetLength (settings env)) ->
  sleepCorrection seconds env w =
    (Normal tt,
     mkWorld (vars w) (reads w) (polls w) (S (S (calls w))) (timers w)
       (nextTimer w) (trace w)).
Proof.
  intros Q B I. unfold sleepCorrection. prims. run Q.
  replace (seconds >? getSeconds (breakFrequency (settings env))) with false
    by (symmetry; rewrite Z.gtb_ltb; apply Z.ltb_ge; lia).
  run Q.
  replace (seconds >? getSeconds (idleResetLength (settings env))) with false
    by (symmetry; rewrite Z.gtb_ltb; apply Z.ltb_ge; lia).
  reflexivity.
Qed.

(** X23.  The sleep correction does nothing when the gap is at most one
    second, whatever the settings: the lengths it compares with are never
    below 1, a duration of zero counting as one second.  So the first tick
    of the application, which measures a gap of 0, is never taken for a
    wake-up. *)
Theorem sleepCorrection_needs_a_gap (env : Env) (w : World) (seconds : Z) :
  quiet env ->
  seconds <= 1 ->
  let w' := after (sleepCorrection seconds env w) in
  outcome (sleepCorrection seconds env w) = Normal tt /\
  vars w' = vars w /\ timers w' = timers w /\ trace w' = trace w.
Proof.
  intros Q S. cbv zeta. unfold outcome, after.
  pose proof (getSeconds_positive (breakFrequency (settings env))).
  pose proof (getSeconds_positive (idleResetLength (settings env))).
  rewrite sleepCorrection_idle by (auto; lia). repeat split.
Qed.

Lemma sleepCorrection_needs_a_gap_witness :
  vars (after (sleepCorrection 0 (steady hourlySettings 1000 Active) initialWorld))
    = vars initialWorld.
Proof.
  apply (sleepCorrection_needs_a_gap (steady hourlySettings 1000 Active)
           initialWorld 0).
  - intros n. reflexivity.
  - lia.
Defined.

(** *** Whole ticks *)

Lemma checkShouldHaveBreak_value env w :
  quiet env ->
  exists inWorkingHours idle w',
    checkShouldHaveBreak env w =
      (Normal (negb (havingBreak (vars w)) && breaksEnabled (settings env)
               && inWorkingHours && negb idle), w') /\
    (exists l, vars w' = with_lockStart l (vars w)) /\
    timers w' = timers w.
Proof.
  intros Q. unfold checkShouldHaveBreak. prims. run Q.
  match goal with
  | |- context [checkInWorkingHours env ?x] =>
      destruct (checkInWorkingHours_quiet env x Q) as (w1 & E1 & V1 & T1 & _)
  end.
  rewrite E1.
  destruct (checkIdle_frame env w1 Q) as (idle & w2 & E2 & [l V2] & T2 & _).
  rewrite E2. cbn in *.
  replace (havingBreak (vars w2)) with (havingBreak (vars w))
    by (rewrite V2, V1; reflexivity).
  do 3 eexists. split; [reflexivity |].
  split; [exists l; rewrite V2, V1; reflexivity | congruence].
Qed.

Lemma sleepCorrection_frame env w (seconds : Z) :
  quiet env ->
  exists w',
    sleepCorrection seconds env w = (Normal tt, w') /\
    havingBreak (vars w') = havingBreak (vars w) /\
    lastTick (vars w') = lastTick (vars w) /\
    timers w' = timers w /\
    (postponedCount (vars w') = postponedCount (vars w) \/
     postponedCount (vars w') = 0%nat).
Proof.
  intros Q. unfold sleepCorrection. prims. run Q.
  destruct (seconds >? getSeconds (breakFrequency (settings env))); run Q.
  { eexists. split; [reflexivity |]. cbn. auto. }
  destruct (seconds >? getSeconds (idleResetLength (settings env))); run Q.
  2: { eexists. split; [reflexivity |]. cbn. auto. }
  destruct (idleStart (vars w)) eqn:I; run Q; use_createBreak Q; cbn in *;
    exists w'; (split; [reflexivity |]); rewrite Hv.
  - rewrite I. cbn. repeat split; auto.
  - destruct (lastTick (vars w)) eqn:L; cbn; repeat split; auto.
Qed.

Lemma doBreak_frame env w :
  quiet env ->
  exists w',
    doBreak env w = (Normal tt, w') /\
    lastTick (vars w') = lastTick (vars w) /\
    (postponedCount (vars w') = postponedCount (vars w) \/
     postponedCount (vars w') = 0%nat) /\
    (truthy (breakTime (vars w)) = true -> truthy (breakTime (vars w')) = true).
Proof.
  intros Q. destruct (notificationType (settings env)) eqn:T.
  - destruct (doBreak_notification env w Q T) as (w' & k & E & _ & Hv & _).
    exists w'. split; [exact E |]. rewrite Hv.
    destruct (idleStart (vars w)); cbn; auto.
  - rewrite (doBreak_popup env w Q T). eexists. split; [reflexivity |]. cbn. auto.
Qed.

Lemma decide_frame env w (shouldHaveBreak : bool) :
  quiet env ->
  exists w',
    decide shouldHaveBreak env w = (Normal tt, w') /\
    lastTick (vars w') = lastTick (vars w) /\
    (postponedCount (vars w') = postponedCount (vars w) \/
     postponedCount (vars w') = 0%nat) /\
    (shouldHaveBreak = false ->
     if havingBreak (vars w)
     then vars w' = vars w /\ timers w' = timers w
     else breakTime (vars w') = None /\ havingBreak (vars w') = false /\
          timers w' = timers w) /\
    (shouldHaveBreak = true -> truthy (breakTime (vars w')) = true).
Proof.
  intros Q. unfold decide. prims. run Q.
  destruct shouldHaveBreak; cbn [negb andb].
  - destruct (breakTime (vars w)) as [bt |] eqn:B; cbn [truthy negb]; run Q.
    + unfold checkBreak. prims. run Q.
      destruct (_ >? _); run Q.
      * match goal with
        | |- context [doBreak env ?x] =>
            destruct (doBreak_frame env x Q) as (w' & E & L & P & A)
        end.
        rewrite E. exists w'. cbn in *. rewrite B in A.
        repeat split; auto. intros [=].
      * eexists. split; [reflexivity |]. cbn. rewrite B.
        repeat split; auto. intros [=].
    + use_createBreak Q. cbn in *. exists w'. split; [reflexivity |].
      rewrite Hv. destruct (idleStart (vars w)); cbn; repeat split; auto;
        intros [=].
  - destruct (havingBreak (vars w)) eqn:H; cbn [negb andb].
    + eexists. split; [reflexivity |]. repeat split; auto. intros [=].
    + destruct (breakTime (vars w)) as [bt |] eqn:B; cbn [truthy]; run Q.
      * match goal with
        | |- context [checkIdle env ?x] =>
            destruct (checkIdle_frame env x Q)
              as (idle & w1 & E1 & [l V1] & T1 & _)
        end.
        rewrite E1. cbn in V1, T1.
        destruct idle; run Q; eexists; (split; [reflexivity |]); cbn;
          rewrite V1; cbn; repeat split; auto; intros [=].
      * eexists. split; [reflexivity |]. repeat split; auto. intros [=].
Qed.

Lemma secondsSinceLastTick_frame env w :
  exists seconds w',
    secondsSinceLastTick env w = (Normal seconds, w') /\
    vars w' = vars w /\ timers w' = timers w.
Proof.
  unfold secondsSinceLastTick. prims.
  destruct (lastTick (vars w)); do 2 eexists; (split; [reflexivity |]);
    split; reflexivity.
Qed.

(** The run of a tick in which no collaborator raises, phase by phase:
    [w1] after [checkShouldHaveBreak], [w2] after the gap is measured and
    logged, [w3] after the sleep correction, [w4] after the decisions. *)
Lemma tick_phases env w :
  quiet env ->
  exists shb w1 w2 w3 w4,
    checkShouldHaveBreak env w = (Normal shb, w1) /\
    (havingBreak (vars w) = true -> shb = false) /\
    (exists l, vars w1 = with_lockStart l (vars w)) /\ timers w1 = timers w /\
    vars w2 = vars w1 /\ timers w2 = timers w1 /\
    havingBreak (vars w3) = havingBreak (vars w2) /\
    lastTick (vars w3) = lastTick (vars w2) /\
    timers w3 = timers w2 /\
    (postponedCount (vars w3) = postponedCount (vars w2) \/
     postponedCount (vars w3) = 0%nat) /\
    lastTick (vars w4) = lastTick (vars w3) /\
    (postponedCount (vars w4) = postponedCount (vars w3) \/
     postponedCount (vars w4) = 0%nat) /\
    (shb = false ->
     if havingBreak (vars w3)
     then vars w4 = vars w3 /\ timers w4 = timers w3
     else breakTime (vars w4) = None /\ havingBreak (vars w4) = false /\
          timers w4 = timers w3) /\
    (shb = true -> truthy (breakTime (vars w4)) = true) /\
    tick env w =
      (Normal tt,
       mkWorld (with_lastTick (Some (clock env (reads w4))) (vars w4))
         (S (reads w4)) (polls w4) (calls w4) (timers w4) (nextTimer w4)
         (trace w4)).
Proof.
  intros Q.
  destruct (checkShouldHaveBreak_value env w Q)
    as (inWH & idle & w1 & E1 & V1 & T1).
  destruct (secondsSinceLastTick_frame env w1) as (s & w1' & E2 & V2 & T2).
  pose proof (logTick_quiet env w1' Q) as E3.
  match type of E3 with
  | _ = (_, ?x) => set (w2 := x) in *
  end.
  destruct (sleepCorrection_frame env w2 s Q) as (w3 & E4 & F4).
  set (shb := negb (havingBreak (vars w)) && breaksEnabled (settings env)
              && inWH && negb idle) in *.
  destruct (decide_frame env w3 shb Q) as (w4 & E5 & F5).
  exists shb, w1, w2, w3, w4.
  split; [exact E1 |].
  split; [intros H; subst shb; rewrite H; reflexivity |].
  split; [exact V1 |]. split; [exact T1 |].
  split; [exact V2 |]. split; [exact T2 |].
  destruct F4 as (A & B & C & D). destruct F5 as (A5 & B5 & C5 & D5).
  repeat (split; [assumption |]).
  unfold tick, tryFinally, tickBody.
  rewrite (bind_normal _ _ _ _ _ _ E1).
  rewrite (bind_normal _ _ _ _ _ _ E2).
  rewrite (bind_normal _ _ _ _ _ _ E3).
  rewrite (bind_normal _ _ _ _ _ _ E4).
  rewrite E5, tickFinally_normal. reflexivity.
Qed.

(** X24.  A tick that finds no break due to be scheduled (breaks switched
    off, outside working hours, or the system idle) while none is being
    presented always ends with no break armed, whether or not one was
    armed before and whatever the sleep correction did; it starts no
    break. *)
Theorem tick_gated_off_disarms (env : Env) (w : World) :
  quiet env ->
  outcome (checkShouldHaveBreak env w) = Normal false ->
  havingBreak (vars w) = false ->
  let w' := after (tick env w) in
  outcome (tick env w) = Normal tt /\
  breakTime (vars w') = None /\
  havingBreak (vars w') = false /\
  timers w' = timers w.
Proof.
  intros Q S H. cbv zeta.
  destruct (tick_phases env w Q)
    as (shb & w1 & w2 & w3 & w4 & E1 & _ & [l V1] & T1 & V2 & T2 & H3 & _ & T3
        & _ & _ & _ & D & _ & E).
  unfold outcome in S. rewrite E1 in S. injection S as ->.
  specialize (D eq_refl).
  assert (H3' : havingBreak (vars w3) = false)
    by (rewrite H3, V2, V1; exact H).
  rewrite H3' in D. destruct D as (B4 & H4 & T4).
  unfold outcome, after. rewrite E. cbn.
  repeat split; auto. congruence.
Qed.

Lemma tick_gated_off_disarms_witness :
  breakTime (vars (after (tick breaksOff postponedOnce))) = None.
Proof.
  apply (tick_gated_off_disarms breaksOff postponedOnce).
  - intros n. reflexivity.
  - vm_compute. reflexivity.
  - reflexivity.
Defined.

(** X25.  While a break is being presented a tick never ends the
    presentation and never starts another break: [havingBreak] stays
    [true] and no timer is set or cleared. *)
Theorem tick_while_presenting (env : Env) (w : World) :
  quiet env ->
  havingBreak (vars w) = true ->
  let w' := after (tick env w) in
  outcome (tick env w) = Normal tt /\
  havingBreak (vars w') = true /\
  timers w' = timers w.
Proof.
  intros Q H. cbv zeta.
  destruct (tick_phases env w Q)
    as (shb & w1 & w2 & w3 & w4 & E1 & S & [l V1] & T1 & V2 & T2 & H3 & _ & T3
        & _ & _ & _ & D & _ & E).
  specialize (D (S H)).
  assert (H3' : havingBreak (vars w3) = true)
    by (rewrite H3, V2, V1; exact H).
  rewrite H3' in D. destruct D as (V4 & T4).
  unfold outcome, after. rewrite E. cbn. rewrite V4.
  repeat split; auto. congruence.
Qed.

Lemma tick_while_presenting_witness :
  havingBreak (vars (after (tick (steady hourlySettings 2000 Active) presenting)))
    = true.
Proof.
  apply (tick_while_presenting (steady hourlySettings 2000 Active) presenting).
  - intros n. reflexivity.
  - reflexivity.
Defined.

(** X26.  A tick never raises [postponedCount]: it ends with the count it
    started with, or with 0.  Only a click on the warning counts a
    postponement. *)
Theorem tick_never_raises_count (env : Env) (w : World) :
  quiet env ->
  let w' := after (tick env w) in
  postponedCount (vars w') = postponedCount (vars w) \/
  postponedCount (vars w') = 0%nat.
Proof.
  intros Q. cbv zeta.
  destruct (tick_phases env w Q)
    as (shb & w1 & w2 & w3 & w4 & E1 & _ & [l V1] & _ & V2 & _ & _ & _ & _
        & P3 & _ & P4 & _ & _ & E).
  unfold after. rewrite E. cbn.
  assert (P2 : postponedCount (vars w2) = postponedCount (vars w))
    by (rewrite V2, V1; reflexivity).
  destruct P4 as [P4 | P4]; [| auto].
  destruct P3 as [P3 | P3]; [left | right]; congruence.
Qed.

Lemma tick_never_raises_count_witness :
  postponedCount (vars (after (tick breaksOff postponedOnce))) = 1%nat \/
  postponedCount (vars (after (tick breaksOff postponedOnce))) = 0%nat.
Proof.
  apply (tick_never_raises_count breaksOff postponedOnce).
  intros n. reflexivity.
Defined.

(** X27.  A tick that finds a break due to be scheduled always ends with a
    break armed: it arms one if none was, and a break that fires stays
    armed (popup mode) or is armed anew (notification mode). *)
Theorem tick_scheduled_ends_armed (env : Env) (w : World) :
  quiet env ->
  outcome (checkShouldHaveBreak env w) = Normal true ->
  outcome (tick env w) = Normal tt /\
  exists t, breakTime (vars (after (tick env w))) = Some t.
Proof.
  intros Q S.
  destruct (tick_phases env w Q)
    as (shb & w1 & w2 & w3 & w4 & E1 & _ & _ & _ & _ & _ & _ & _ & _
        & _ & _ & _ & _ & A & E).
  unfold outcome in S. rewrite E1 in S. injection S as ->.
  specialize (A eq_refl).
  unfold outcome, after. rewrite E. cbn. split; [reflexivity |].
  destruct (breakTime (vars w4)) as [t |]; [exists t; reflexivity | discriminate].
Qed.

Lemma tick_scheduled_ends_armed_witness :
  exists t,
    breakTime (vars (after (tick (steady hourlySettings 1000 Active) initialWorld)))
      = Some t.
Proof.
  apply (tick_scheduled_ends_armed (steady hourlySettings 1000 Active) initialWorld).
  - intros n. reflexivity.
  - vm_compute. reflexivity.
Defined.

(** X28.  An ordinary tick leaves a running countdown alone: when a break
    is due to be scheduled, the gap since the previous tick is within both
    thresholds and no clock reading of the tick is after the break time,
    the tick only updates [lockStart] and [lastTick]; the break time, the
    count and the idle record stay, and no break starts. *)
Theorem tick_leaves_countdown (env : Env) (w : World) (armed : Z) :
  quiet env ->
  outcome (checkShouldHaveBreak env w) = Normal true ->
  breakTime (vars w) = Some armed ->
  (forall k, clock env k <= armed) ->
  (forall last k, lastTick (vars w) = Some last ->
     secondsBetween (clock env k) last
       <= getSeconds (breakFrequency (settings env)) /\
     secondsBetween (clock env k) last
       <= getSeconds (idleResetLength (settings env))) ->
  let w' := after (tick env w) in
  outcome (tick env w) = Normal tt /\
  breakTime (vars w') = Some armed /\
  havingBreak (vars w') = havingBreak (vars w) /\
  postponedCount (vars w') = postponedCount (vars w) /\
  idleStart (vars w') = idleStart (vars w) /\
  timers w' = timers w.
Proof.
  intros Q S B C G. cbv zeta.
  destruct (checkShouldHaveBreak_quiet env w Q) as (shb & w1 & E1 & [l V1] & T1 & _).
  unfold outcome in S. rewrite E1 in S. injection S as ->.
  assert (G1 : exists s w2,
             secondsSinceLastTick env w1 = (Normal s, w2) /\
             vars w2 = vars w1 /\ timers w2 = timers w1 /\
             s <= getSeconds (breakFrequency (settings env)) /\
             s <= getSeconds (idleResetLength (settings env))).
  { unfold secondsSinceLastTick. prims.
    replace (lastTick (vars w1)) with (lastTick (vars w)) by (rewrite V1; reflexivity).
    destruct (lastTick (vars w)) as [last |] eqn:L.
    - do 2 eexists. split; [reflexivity |]. cbn.
      destruct (G last (reads w1) eq_refl). auto.
    - do 2 eexists. split; [reflexivity |]. cbn.
      pose proof (getSeconds_positive (breakFrequency (settings env))).
      pose proof (getSeconds_positive (idleResetLength (settings env))).
      repeat split; lia. }
  destruct G1 as (s & w2 & E2 & V2 & T2 & Gb & Gi).
  unfold outcome, after, tick, tryFinally, tickBody.
  rewrite (bind_normal _ _ _ _ _ _ E1).
  rewrite (bind_normal _ _ _ _ _ _ E2).
  rewrite (bind_normal _ _ _ _ _ _ (logTick_quiet env w2 Q)).
  rewrite (bind_normal _ _ _ _ _ _ (sleepCorrection_idle env _ s Q Gb Gi)).
  unfold decide, checkBreak. prims. run Q.
  rewrite V2, V1. run Q. rewrite B. run Q. rewrite ?B. cbn [toNumber].
  replace (clock env (reads w2) >? armed) with false
    by (symmetry; rewrite Z.gtb_ltb; apply Z.ltb_ge; apply C).
  run Q. rewrite ?B, ?T2, ?T1. repeat split; auto.
Qed.

Lemma tick_leaves_countdown_witness :
  breakTime
    (vars (after (tick (steady hourlySettings 2000 Active)
                    (worldOf (mkVars (Some 3600000) false 1%nat None None (Some 1000))))))
  = Some 3600000.
Proof.
  apply (tick_leaves_countdown (steady hourlySettings 2000 Active)
           (worldOf (mkVars (Some 3600000) false 1%nat None None (Some 1000)))
           3600000).
  - intros n. reflexivity.
  - vm_compute. reflexivity.
  - reflexivity.
  - intros k. vm_compute. discriminate.
  - intros last k [= <-]. vm_compute. split; discriminate.
Defined.
